(** * misskey-timeline-watchdog: a shallow embedding of [main.go]

    The watchdog keeps one websocket subscription to a Misskey streaming
    endpoint alive.  When the stream goes silent or disconnects it reports the
    failure, runs an operator-supplied recovery command, sleeps for a cooldown
    and reconnects, forever.

    The development follows the layout of [main.go]:
    - Go's scalar types ([int], [time.Duration], strings as byte sequences);
    - the pieces of the Go libraries the program calls and whose result it
      inspects ([strings.TrimPrefix], [strings.TrimSuffix], [strings.Fields],
      [fmt.Sprintf] with [%s] verbs);
    - the [Config] struct and [getTargetURL];
    - a small monad for the effectful functions: every call into the operating
      system, the network, Sentry or the clock is an event, answered by a
      [World] that may look at the whole history;
    - [startMonitoringSession], [executeCommandAndReport] and [main];
    - the theorems. *)

From Stdlib Require Import ZArith String Ascii List Bool Lia.
Import ListNotations.

Local Open Scope string_scope.
Local Open Scope Z_scope.

(** ** Go scalars *)

Module GoInt.

(** [int64] arithmetic wraps around.  [time.Duration] is an [int64].  On a
    64-bit target [int] is 64 bits wide too, so the conversion
    [time.Duration(n)] of an [int] keeps the value; that is the target
    modelled here. *)
Definition min_int64 : Z := - 2 ^ 63.
Definition max_int64 : Z := 2 ^ 63 - 1.

Definition wrap64 (z : Z) : Z := (z + 2 ^ 63) mod 2 ^ 64 - 2 ^ 63.

Definition in_int64 (z : Z) : Prop := min_int64 <= z <= max_int64.

Definition mul64 (a b : Z) : Z := wrap64 (a * b).

End GoInt.

Module GoTime.

(** [time.Duration]: a count of nanoseconds in an [int64]. *)
Definition Duration := Z.

Definition Nanosecond : Duration := 1.
Definition Second : Duration := 1000000000.
Definition Minute : Duration := 60 * Second.

(** [time.Duration(n) * time.Second] for an [int] [n]. *)
Definition seconds (n : Z) : Duration := GoInt.mul64 n Second.

(** The largest number of whole seconds a [Duration] holds. *)
Definition max_seconds : Z := 9223372036.

(** [time.Time] as an instant in nanoseconds; [Add] moves it. *)
Definition Time := Z.
Definition Add (t : Time) (d : Duration) : Time := t + d.

End GoTime.

(** ** Go strings

    A Go string is a sequence of bytes; [string] of the Standard Library is a
    sequence of 8-bit [ascii] characters, the same thing. *)

Module GoStrings.

Fixpoint drop (n : nat) (s : string) : string :=
  match n, s with
  | O, _ => s
  | S n', String _ s' => drop n' s'
  | S _, EmptyString => EmptyString
  end.

Fixpoint take (n : nat) (s : string) : string :=
  match n, s with
  | O, _ => EmptyString
  | S n', String c s' => String c (take n' s')
  | S _, EmptyString => EmptyString
  end.

(** [strings.HasPrefix(s, prefix)] *)
Fixpoint HasPrefix (s prefix : string) {struct prefix} : bool :=
  match prefix, s with
  | EmptyString, _ => true
  | String _ _, EmptyString => false
  | String p prefix', String c s' => Ascii.eqb c p && HasPrefix s' prefix'
  end.

(** [strings.HasSuffix(s, suffix)]:
    [len(s) >= len(suffix) && s[len(s)-len(suffix):] == suffix] *)
Definition HasSuffix (s suffix : string) : bool :=
  (String.length suffix <=? String.length s)%nat
  && String.eqb (drop (String.length s - String.length suffix) s) suffix.

(** [strings.TrimPrefix(s, prefix)] *)
Definition TrimPrefix (s prefix : string) : string :=
  if HasPrefix s prefix then drop (String.length prefix) s else s.

(** [strings.TrimSuffix(s, suffix)] *)
Definition TrimSuffix (s suffix : string) : string :=
  if HasSuffix s suffix
  then take (String.length s - String.length suffix) s
  else s.

(** [fmt.Sprintf(format, args...)] for formats whose only verb is [%s] and
    whose operands are strings.  A verb without an operand prints as
    [%!s(MISSING)], as in Go. *)
Fixpoint Sprintf (format : string) (args : list string) : string :=
  match format with
  | String "%" (String "s" rest) =>
      match args with
      | a :: args' => a ++ Sprintf rest args'
      | [] => "%!s(MISSING)" ++ Sprintf rest []
      end
  | String c rest => String c (Sprintf rest args)
  | EmptyString => EmptyString
  end.

(** *** Runes

    [strings.Fields] works on runes: the string is decoded as UTF-8, an
    invalid byte counting as the rune [RuneError] of width 1. *)

Definition rune := Z.
Definition RuneError : rune := 0xFFFD.

Definition byte_of (c : ascii) : Z := Z.of_N (N_of_ascii c).

(** [s[i]], for [i] below [len(s)]. *)
Definition at_ (s : string) (i : nat) : Z :=
  match String.get i s with
  | Some c => byte_of c
  | None => 0
  end.

(** The table [first] of package [utf8], for a leading byte that is not
    ASCII: the length of the sequence and the range accepted for its second
    byte; [None] for the bytes that start no sequence. *)
Definition first (b : Z) : option (nat * Z * Z) :=
  if b <? 0xC2 then None
  else if b <=? 0xDF then Some (2%nat, 0x80, 0xBF)
  else if b =? 0xE0 then Some (3%nat, 0xA0, 0xBF)
  else if b <=? 0xEC then Some (3%nat, 0x80, 0xBF)
  else if b =? 0xED then Some (3%nat, 0x80, 0x9F)
  else if b <=? 0xEF then Some (3%nat, 0x80, 0xBF)
  else if b =? 0xF0 then Some (4%nat, 0x90, 0xBF)
  else if b <=? 0xF3 then Some (4%nat, 0x80, 0xBF)
  else if b =? 0xF4 then Some (4%nat, 0x80, 0x8F)
  else None.

Definition continuation (b : Z) : bool := (0x80 <=? b) && (b <=? 0xBF).

(** [utf8.DecodeRuneInString(s)]: the first rune of [s] and its width. *)
Definition DecodeRuneInString (s : string) : rune * nat :=
  match s with
  | EmptyString => (RuneError, O)
  | String c0 _ =>
      let s0 := byte_of c0 in
      if s0 <? 0x80 then (s0, 1%nat)
      else
        match first s0 with
        | None => (RuneError, 1%nat)
        | Some (sz, lo, hi) =>
            if (String.length s <? sz)%nat then (RuneError, 1%nat)
            else
              let s1 := at_ s 1 in
              if (s1 <? lo) || (hi <? s1) then (RuneError, 1%nat)
              else if (sz <=? 2)%nat then
                (Z.lor (Z.shiftl (Z.land s0 0x1F) 6) (Z.land s1 0x3F), 2%nat)
              else
                let s2 := at_ s 2 in
                if negb (continuation s2) then (RuneError, 1%nat)
                else if (sz <=? 3)%nat then
                  (Z.lor (Z.lor (Z.shiftl (Z.land s0 0x0F) 12)
                                (Z.shiftl (Z.land s1 0x3F) 6))
                         (Z.land s2 0x3F), 3%nat)
                else
                  let s3 := at_ s 3 in
                  if negb (continuation s3) then (RuneError, 1%nat)
                  else
                    (Z.lor (Z.lor (Z.lor (Z.shiftl (Z.land s0 0x07) 18)
                                         (Z.shiftl (Z.land s1 0x3F) 12))
                                  (Z.shiftl (Z.land s2 0x3F) 6))
                           (Z.land s3 0x3F), 4%nat)
        end
  end.

(** [for i, r := range s]: the byte offset and the value of each rune.
    Every rune is at least one byte wide, so [len(s)] steps are enough. *)
Fixpoint range_from (steps : nat) (i : nat) (s : string) : list (nat * rune) :=
  match steps with
  | O => []
  | S steps' =>
      match s with
      | EmptyString => []
      | String _ _ =>
          let '(r, size) := DecodeRuneInString s in
          (i, r) :: range_from steps' (i + size)%nat (drop size s)
      end
  end.

Definition range (s : string) : list (nat * rune) :=
  range_from (String.length s) 0%nat s.

(** [unicode.IsSpace(r)] *)
Definition IsSpace (r : rune) : bool :=
  if r <=? 0xFF then
    (r =? 0x09) || (r =? 0x0A) || (r =? 0x0B) || (r =? 0x0C) || (r =? 0x0D)
    || (r =? 0x20) || (r =? 0x85) || (r =? 0xA0)
  else
    (r =? 0x1680) || ((0x2000 <=? r) && (r <=? 0x200A))
    || (r =? 0x2028) || (r =? 0x2029) || (r =? 0x202F) || (r =? 0x205F)
    || (r =? 0x3000).

(** One turn of the loop of [strings.FieldsFunc]: [start] is the offset at
    which the field being read began, [None] between fields (the source
    keeps a negative number there). *)
Definition span : Type := (nat * nat)%type.

Definition FieldsFunc_step (f : rune -> bool)
    (st : list span * option nat) (x : nat * rune) : list span * option nat :=
  let '(spans, start) := st in
  let '(end_, r) := x in
  if f r then
    match start with
    | Some b => ((spans ++ [(b, end_)])%list, None)
    | None => (spans, None)
    end
  else
    match start with
    | Some _ => (spans, start)
    | None => (spans, Some end_)
    end.

(** [strings.FieldsFunc(s, f)] *)
Definition FieldsFunc (s : string) (f : rune -> bool) : list string :=
  let '(spans, start) := fold_left (FieldsFunc_step f) (range s) ([], None) in
  let spans :=
    match start with
    | Some b => (spans ++ [(b, String.length s)])%list
    | None => spans
    end in
  map (fun sp : span => String.substring (fst sp) (snd sp - fst sp) s) spans.

(** [strings.Fields(s)] splits [s] around runs of white space as
    [unicode.IsSpace] defines it.  (The library also has a faster path for
    strings of ASCII only, with the same result.) *)
Definition Fields (s : string) : list string := FieldsFunc s IsSpace.

(** Every rune of [s] is white space; true of the empty string. *)
Definition whitespace_only (s : string) : bool :=
  forallb (fun x : nat * rune => IsSpace (snd x)) (range s).

End GoStrings.

(** ** Errors

    Go's [error] is an interface value that may be [nil].  [err] are the
    non-nil values the program sees: errors handed back by a library, and the
    ones it builds itself with [fmt.Errorf]. *)

Inductive err : Type :=
| LibError (description : string)
| NotExist (path : string)
| Errorf (format : string)
| ErrorfW (format : string) (wrapped : err).

Definition error : Type := option err.
Definition nil : error := None.

(** ** Configuration *)

Record Config : Type := mkConfig {
  Target_Domain : string;
  Target_URL : string;
  Timeout : Z;
  Cooldown : Z;
  Command : string;
  Sentry_DSN : string
}.

Definition DefaultPath : string := "/streaming".

Definition getTargetURL (cfg : Config) : string * error :=
  if negb (String.eqb (Target_URL cfg) "") then
    (Target_URL cfg, nil)
  else if negb (String.eqb (Target_Domain cfg) "") then
    let cleanDomain :=
      GoStrings.TrimSuffix
        (GoStrings.TrimPrefix (Target_Domain cfg) "https://") "/" in
    (GoStrings.Sprintf "wss://%s%s" [cleanDomain; DefaultPath], nil)
  else
    ("",
     Some (Errorf
       "target.domain or target.url must be specified in the configuration file")).

(** The cooldown computed at the top of [main]. *)
Definition cooldownDuration (cfg : Config) : GoTime.Duration :=
  if Cooldown cfg <=? 0
  then 5 * GoTime.Minute
  else GoTime.seconds (Cooldown cfg).

(** The idle timeout computed in [startMonitoringSession]. *)
Definition timeoutDuration (cfg : Config) : GoTime.Duration :=
  GoTime.seconds (Timeout cfg).



(** ** Constants of [main.go] *)

(** The literals below are written with an apostrophe where the source has a
    double quote; [requote] puts the double quotes back. *)
Definition double_quote : ascii := ascii_of_nat 34.

Fixpoint requote (s : string) : string :=
  match s with
  | EmptyString => EmptyString
  | String c rest =>
      String (if Ascii.eqb c "'" then double_quote else c) (requote rest)
  end.

Definition SubscribePayload : string :=
  Eval cbv in requote
   "{'type':'connect','body':{'channel':'globalTimeline','id':'1','params':{'withRenotes':true,'minimize':true}}}".

Definition DefaultConfigTemplate : string :=
"target:
  domain: '' # Required (e.g., misskey.io)
  # url: '' # Optional: Overrides domain if set (e.g., wss://misskey.io/streaming)
timeout: 10
cooldown: 300 # Seconds to wait before reconnecting after a failure
command: ./script.sh
sentry:
  dsn: '' # e.g. https://public@sentry.example.com/1
".

(** [websocket.TextMessage] *)
Definition TextMessage : Z := 1.

(** ** Events

    What the program prints or reports is kept as the format and its operands
    rather than as the rendered text. *)

Inductive value : Type :=
| VString (s : string)
| VInt (n : Z)
| VDuration (d : GoTime.Duration)
| VError (e : error).

Inductive message : Type :=
| Formatted (format : string) (args : list value)
| Prefixed (prefix : string) (m : message).

Inductive Level : Type := LevelInfo | LevelError | LevelFatal.

(** The part of a [sentry.Scope] the program sets. *)
Record Scope : Type := mkScope {
  scope_level : option Level;
  scope_extra : list (string * string)
}.

(** The scope of a capture made outside [sentry.WithScope]. *)
Definition hubScope : Scope := mkScope None [].

Inductive capture : Type :=
| CaptureMessage (m : message)
| CaptureException (e : error).

Inductive event : Type :=
| EFlagError (m : message)
| EUsage
| EStat (path : string)
| EWriteFile (path data : string) (perm : Z)
| EReadFile (path : string)
| ELog (m : message)
| ESentryInit (dsn : string)
| ESentry (scope : Scope) (c : capture)
| ESentryFlush (timeout : GoTime.Duration)
| EDial (url : string)
| EWriteMessage (messageType : Z) (data : string)
| ESetReadDeadline (t : GoTime.Time)
| EReadMessage
| EClose
| ECombinedOutput (name : string) (args : list string)
| ESleep (d : GoTime.Duration)
| EExit (code : Z).

Definition history : Type := list event.

(** ** The world

    Each field answers one kind of call; the answer may depend on everything
    that happened before the call. *)
Record World : Type := mkWorld {
  os_Stat : history -> string -> error;
  os_WriteFile : history -> string -> string -> Z -> error;
  os_ReadFile : history -> string -> string * error;
  yaml_Unmarshal : string -> Config -> Config * error;
  sentry_Init : history -> string -> error;
  websocket_Dial : history -> string -> error;
  conn_WriteMessage : history -> Z -> string -> error;
  conn_SetReadDeadline : history -> GoTime.Time -> error;
  conn_ReadMessage : history -> error;
  time_Now : history -> GoTime.Time;
  cmd_CombinedOutput : history -> string -> list string -> string * error
}.

(** [os.IsNotExist(err)] *)
Definition os_IsNotExist (e : error) : bool :=
  match e with
  | Some (NotExist _) => true
  | _ => false
  end.

(** ** The monad of the effectful functions

    A computation reads the world and the history up to its start, and yields
    the events it adds together with how it stands: it returned a value, it
    ended the process, or it is still running when the observation stops. *)

Inductive result (A : Type) : Type :=
| Done (a : A)
| Exited (code : Z)
| Running.

Arguments Done {A} a.
Arguments Exited {A} code.
Arguments Running {A}.

Definition M (A : Type) : Type := World -> history -> result A * list event.

Definition ret {A} (a : A) : M A := fun _ _ => (Done a, []).

Definition bind {A B} (m : M A) (f : A -> M B) : M B :=
  fun w h =>
    match m w h with
    | (Done a, t1) =>
        let '(r, t2) := f a w (h ++ t1)%list in (r, (t1 ++ t2)%list)
    | (Exited c, t1) => (Exited c, t1)
    | (Running, t1) => (Running, t1)
    end.

Declare Scope go_scope.
Delimit Scope go_scope with go.

Notation "x <- c1 ;; c2" := (bind c1 (fun x => c2))
  (at level 100, c1 at next level, right associativity) : go_scope.
Notation "' pat <- c1 ;; c2" := (bind c1 (fun x => match x with pat => c2 end))
  (at level 100, pat pattern, c1 at next level, right associativity) : go_scope.
Notation "c1 ;; c2" := (bind c1 (fun _ => c2))
  (at level 100, right associativity) : go_scope.

Local Open Scope go_scope.

(** A call that the world answers. *)
Definition call {A} (e : event) (answer : World -> history -> A) : M A :=
  fun w h => (Done (answer w h), [e]).

(** A call whose answer the program does not use. *)
Definition emit (e : event) : M unit := fun _ _ => (Done tt, [e]).

(** [os.Exit(code)] *)
Definition os_Exit {A} (code : Z) : M A := fun _ _ => (Exited code, [EExit code]).

(** The observation stops here. *)
Definition still_running {A} : M A := fun _ _ => (Running, []).

(** The events a computation adds, and how it stands. *)
Definition outcome {A} (m : M A) (w : World) (h : history) : result A := fst (m w h).
Definition events {A} (m : M A) (w : World) (h : history) : list event := snd (m w h).

(** ** Logging *)

(** [log.Println], [log.Printf] *)
Definition log_Print (m : message) : M unit := emit (ELog m).

(** [log.Fatalf]: print, then [os.Exit(1)]. *)
Definition log_Fatalf {A} (m : message) : M A :=
  log_Print m ;; os_Exit 1.

Definition logPrintf (format : string) (v : list value) : M unit :=
  let msg := Formatted format v in
  log_Print msg ;;
  emit (ESentry hubScope (CaptureMessage msg)).

Definition logFatalf {A} (format : string) (v : list value) : M A :=
  let msg := Formatted format v in
  log_Print (Prefixed "FATAL: " msg) ;;
  emit (ESentry hubScope (CaptureMessage (Prefixed "FATAL: " msg))) ;;
  emit (ESentryFlush (5 * GoTime.Second)) ;;
  os_Exit 1.

(** ** [loadConfig] *)

Definition zeroConfig : Config := mkConfig "" "" 0 0 "" "".

Definition loadConfig (path : string) : M (option Config * error) :=
  '(data, err) <- call (EReadFile path) (fun w h => os_ReadFile w h path) ;;
  match err with
  | Some _ => ret (None, err)
  | None =>
      '(cfg, err) <- (fun w h => (Done (yaml_Unmarshal w data zeroConfig), [])) ;;
      match err with
      | Some _ => ret (None, err)
      | None => ret (Some cfg, nil)
      end
  end.

(** ** [startMonitoringSession] *)

(** [defer c.Close()]: the connection is closed when the function returns,
    whichever [return] it takes. *)
Definition defer_Close {A} (body : M A) : M A :=
  r <- body ;;
  emit EClose ;;
  ret r.

(** The [for] loop of the session.  [reads] bounds how many turns of it are
    observed: the loop has no exit of its own. *)
Fixpoint readLoop (reads : nat) (timeoutDuration : GoTime.Duration) : M error :=
  match reads with
  | O => still_running
  | S reads' =>
      now <- (fun w h => (Done (time_Now w h), [])) ;;
      err <- call (ESetReadDeadline (GoTime.Add now timeoutDuration))
                  (fun w h => conn_SetReadDeadline w h (GoTime.Add now timeoutDuration)) ;;
      match err with
      | Some e => ret (Some (ErrorfW "failed to set read deadline: %w" e))
      | None =>
          err <- call EReadMessage conn_ReadMessage ;;
          match err with
          | Some e => ret (Some (ErrorfW "read timeout or disconnection: %w" e))
          | None => readLoop reads' timeoutDuration
          end
      end
  end.

Definition startMonitoringSession (reads : nat) (url : string) (cfg : Config)
  : M error :=
  logPrintf "Connecting to Misskey Streaming API..." [] ;;
  err <- call (EDial url) (fun w h => websocket_Dial w h url) ;;
  match err with
  | Some e => ret (Some (ErrorfW "connection failed: %w" e))
  | None =>
      defer_Close (
        err <- call (EWriteMessage TextMessage SubscribePayload)
                    (fun w h => conn_WriteMessage w h TextMessage SubscribePayload) ;;
        match err with
        | Some e => ret (Some (ErrorfW "subscribe request failed: %w" e))
        | None =>
            logPrintf "Monitoring started (Listening for messages)..." [] ;;
            readLoop reads (timeoutDuration cfg)
        end)
  end.

(** ** [executeCommandAndReport] *)

Definition executeCommandAndReport (commandStr : string) : M unit :=
  let parts := GoStrings.Fields commandStr in
  match parts with
  | [] => logPrintf "Error: Recovery command string is empty" []
  | name :: args =>
      '(outputBytes, err) <- call (ECombinedOutput name args)
                                  (fun w h => cmd_CombinedOutput w h name args) ;;
      let output := outputBytes in
      log_Print (Formatted "Command Output:
%s" [VString output]) ;;
      match err with
      | Some e =>
          emit (ESentry (mkScope (Some LevelFatal) [("command_output", output)])
                        (CaptureException (Some (ErrorfW "command failed: %w" e)))) ;;
          log_Print (Formatted "command failed: %v" [VError err])
      | None =>
          emit (ESentry (mkScope (Some LevelInfo) [("command_output", output)])
                        (CaptureMessage
                           (Formatted "command executed successfully: %s" [VString name]))) ;;
          log_Print (Formatted "command executed successfully." [])
      end
  end.

(** ** [main] *)

(** One turn of the [for] loop of [main]. *)
Definition cycle (reads : nat) (targetURL : string) (cfg : Config)
    (cooldownDuration : GoTime.Duration) : M unit :=
  (* A. Start Monitoring *)
  err <- startMonitoringSession reads targetURL cfg ;;
  (* B. Report Crash to Sentry (Error Level) *)
  logPrintf "Monitor session ended with error: %v" [VError err] ;;
  emit (ESentry (mkScope (Some LevelError) []) (CaptureException err)) ;;
  (* C. Execute command *)
  logPrintf "Attempting to execute command..." [] ;;
  executeCommandAndReport (Command cfg) ;;
  (* D. Cooldown *)
  logPrintf ">>> Waiting %s before reconnecting..." [VDuration cooldownDuration] ;;
  emit (ESentryFlush (5 * GoTime.Second)) ;;
  emit (ESleep cooldownDuration) ;;
  logPrintf ">>> Cooldown finished. Retrying connection..." [].

(** The [for] loop of [main], observed for [cycles] turns. *)
Fixpoint supervisor (cycles reads : nat) (targetURL : string) (cfg : Config)
    (cooldownDuration : GoTime.Duration) : M unit :=
  match cycles with
  | O => still_running
  | S cycles' =>
      cycle reads targetURL cfg cooldownDuration ;;
      supervisor cycles' reads targetURL cfg cooldownDuration
  end.

(** A nil pointer dereference ends a Go process with status 2. *)
Definition panic {A} : M A := os_Exit 2.

(** [main], from the statement that follows [flag.Parse()]; [configPath] is
    the value of the [-config] flag.  ([main_from_command_line], below, puts
    the parsing of the command line in front.)  The deferred [sentry.Flush]
    never runs: [main] does not return, and [os.Exit] skips deferred
    calls. *)
Definition main (configPath : string) (cycles reads : nat) : M unit :=
  err <- call (EStat configPath) (fun w h => os_Stat w h configPath) ;;
  (if os_IsNotExist err then
     _ <- call (EWriteFile configPath DefaultConfigTemplate 420)
               (fun w h => os_WriteFile w h configPath DefaultConfigTemplate 420) ;;
     log_Fatalf (Formatted "Configuration file not found. Created sample at: %s"
                           [VString configPath])
   else ret tt) ;;
  '(cfgp, err) <- loadConfig configPath ;;
  match err with
  | Some _ => log_Fatalf (Formatted "Failed to load configuration: %v" [VError err])
  | None =>
      match cfgp with
      | None => panic
      | Some cfg =>
          (if negb (String.eqb (Sentry_DSN cfg) "") then
             err <- call (ESentryInit (Sentry_DSN cfg))
                         (fun w h => sentry_Init w h (Sentry_DSN cfg)) ;;
             match err with
             | Some _ => log_Print (Formatted "Sentry initialization failed: %v" [VError err])
             | None => logPrintf "Sentry initialized successfully." []
             end
           else ret tt) ;;
          '(targetURL, err) <- ret (getTargetURL cfg) ;;
          (match err with
           | Some _ => logFatalf "Configuration Error: %v" [VError err]
           | None => ret tt
           end) ;;
          let cooldownDuration := cooldownDuration cfg in
          logPrintf "Configuration Loaded. Target: %s, Timeout: %ds, Cooldown: %s"
                    [VString targetURL; VInt (Timeout cfg); VDuration cooldownDuration] ;;
          supervisor cycles reads targetURL cfg cooldownDuration
      end
  end.

(** ** The command line

    [main] declares one flag, [-config], a string with the default
    [config.yaml], and calls [flag.Parse()] on the arguments of the process.
    The flag set of the command line handles errors by exiting: with status 0
    when help was asked for, with status 2 otherwise. *)

Inductive parsed : Type :=
| FlagsParsed (configPath : string)
| FlagHelp
| FlagError (m : message).

(** The part of [s] before its first [=], and the part after it when there
    is one. *)
Fixpoint cut_at_equals (s : string) : string * option string :=
  match s with
  | EmptyString => (EmptyString, None)
  | String c rest =>
      if Ascii.eqb c "=" then (EmptyString, Some rest)
      else let '(name, value) := cut_at_equals rest in (String c name, value)
  end.

(** The loop of [FlagSet.Parse] over [parseOne]; [configPath] is the value of
    the flag so far.  Parsing stops at the first argument that is not a flag
    and at [--]. *)
Fixpoint flag_Parse_from (args : list string) (configPath : string) : parsed :=
  match args with
  | [] => FlagsParsed configPath
  | s :: rest =>
      match s with
      | String "-" (String c1 r1) =>
          let two_minuses := Ascii.eqb c1 "-" in
          if two_minuses && String.eqb r1 "" then FlagsParsed configPath
          else
            let name := if two_minuses then r1 else String c1 r1 in
            match name with
            | EmptyString => FlagError (Formatted "bad flag syntax: %s" [VString s])
            | String n0 name' =>
                if Ascii.eqb n0 "-" || Ascii.eqb n0 "=" then
                  FlagError (Formatted "bad flag syntax: %s" [VString s])
                else
                  (* equals cannot be first *)
                  let '(name_tail, value) := cut_at_equals name' in
                  let name := String n0 name_tail in
                  if String.eqb name "config" then
                    match value with
                    | Some v => flag_Parse_from rest v
                    | None =>
                        match rest with
                        | v :: rest' => flag_Parse_from rest' v
                        | [] =>
                            FlagError (Formatted "flag needs an argument: -%s"
                                                 [VString name])
                        end
                    end
                  else if String.eqb name "help" || String.eqb name "h" then
                    FlagHelp
                  else
                    FlagError (Formatted "flag provided but not defined: -%s"
                                         [VString name])
            end
      | _ => FlagsParsed configPath
      end
  end.

(** [flag.String("config", "config.yaml", ...)] then [flag.Parse()], on the
    arguments [args] that follow the program name. *)
Definition flag_Parse (args : list string) : parsed :=
  flag_Parse_from args "config.yaml".

(** The whole of [main], started with the arguments [args]. *)
Definition main_from_command_line (args : list string) (cycles reads : nat)
  : M unit :=
  match flag_Parse args with
  | FlagsParsed configPath => main configPath cycles reads
  | FlagHelp => emit EUsage ;; os_Exit 0
  | FlagError m => emit (EFlagError m) ;; emit EUsage ;; os_Exit 2
  end.

(** ** Reading of the specification

    Two notions the specification uses and the program has no code for: the
    scheme prefix of an address, and the structure of a JSON text. *)

Module Spec.

Import GoStrings.

Definition is_alpha (c : ascii) : bool :=
  let b := byte_of c in
  ((0x41 <=? b) && (b <=? 0x5A)) || ((0x61 <=? b) && (b <=? 0x7A)).

Definition is_digit (c : ascii) : bool :=
  let b := byte_of c in (0x30 <=? b) && (b <=? 0x39).

(** A character that may follow the first letter of a URI scheme. *)
Definition is_scheme_char (c : ascii) : bool :=
  is_alpha c || is_digit c
  || Ascii.eqb c "+" || Ascii.eqb c "-" || Ascii.eqb c ".".

(** What follows [://] when [s] goes on with scheme characters up to it. *)
Fixpoint after_scheme (s : string) : option string :=
  match s with
  | EmptyString => None
  | String c rest =>
      if HasPrefix s "://" then Some (drop 3 s)
      else if is_scheme_char c then after_scheme rest
      else None
  end.

(** [s] without its leading scheme prefix ([https://], [http://], [wss://],
    ...), whichever scheme it is. *)
Definition strip_scheme (s : string) : string :=
  match s with
  | EmptyString => s
  | String c rest =>
      if is_alpha c then
        match after_scheme rest with
        | Some host => host
        | None => s
        end
      else s
  end.

(** [s] without its trailing slash, when it has one. *)
Definition strip_trailing_slash (s : string) : string := TrimSuffix s "/".

(** The address the specification gives for a bare domain. *)
Definition resolve_domain (domain : string) : string :=
  "wss://" ++ strip_trailing_slash (strip_scheme domain) ++ "/streaming".

(** [d1] is [d] without the prefix [p], or [d] itself when [d] does not
    start with [p]. *)
Definition without_prefix (p d d1 : string) : Prop :=
  d = p ++ d1 \/ (d1 = d /\ forall r, d <> p ++ r).

(** [d1] is [d] without the suffix [x], or [d] itself when [d] does not
    end with [x]. *)
Definition without_suffix (x d d1 : string) : Prop :=
  d = d1 ++ x \/ (d1 = d /\ forall r, d <> r ++ x).

End Spec.

(** *** JSON texts *)

Module Json.

Import GoStrings.

#[warnings="-register-all"]
Inductive json : Type :=
| JNull
| JBool (b : bool)
| JNumber (lexeme : string)
| JString (s : string)
| JArray (items : list json)
| JObject (members : list (string * json)).

Definition is_ws (c : ascii) : bool :=
  let b := byte_of c in
  (b =? 0x20) || (b =? 0x09) || (b =? 0x0A) || (b =? 0x0D).

Fixpoint skip_ws (s : string) : string :=
  match s with
  | String c rest => if is_ws c then skip_ws rest else s
  | EmptyString => s
  end.

(** The characters of a string up to its closing double quote, escapes
    resolved; [\u] escapes are not read. *)
Fixpoint string_body (s : string) : option (string * string) :=
  match s with
  | EmptyString => None
  | String c rest =>
      if Ascii.eqb c double_quote then Some (EmptyString, rest)
      else if Ascii.eqb c "\" then
        match rest with
        | String e rest' =>
            let unescaped :=
              if Ascii.eqb e double_quote then Some double_quote
              else if Ascii.eqb e "\" then Some "\"%char
              else if Ascii.eqb e "/" then Some "/"%char
              else if Ascii.eqb e "b" then Some (ascii_of_nat 8)
              else if Ascii.eqb e "f" then Some (ascii_of_nat 12)
              else if Ascii.eqb e "n" then Some (ascii_of_nat 10)
              else if Ascii.eqb e "r" then Some (ascii_of_nat 13)
              else if Ascii.eqb e "t" then Some (ascii_of_nat 9)
              else None in
            match unescaped, string_body rest' with
            | Some u, Some (body, tail) => Some (String u body, tail)
            | _, _ => None
            end
        | EmptyString => None
        end
      else if byte_of c <? 0x20 then None
      else
        match string_body rest with
        | Some (body, tail) => Some (String c body, tail)
        | None => None
        end
  end.

Definition is_number_char (c : ascii) : bool :=
  Spec.is_digit c || Ascii.eqb c "-" || Ascii.eqb c "+" || Ascii.eqb c "."
  || Ascii.eqb c "e" || Ascii.eqb c "E".

Fixpoint number_lexeme (s : string) : string * string :=
  match s with
  | String c rest =>
      if is_number_char c
      then let '(lex, tail) := number_lexeme rest in (String c lex, tail)
      else (EmptyString, s)
  | EmptyString => (EmptyString, s)
  end.

(** A recursive-descent reader; [depth] bounds the calls still allowed. *)
Fixpoint value (depth : nat) (s : string) : option (json * string) :=
  match depth with
  | O => None
  | S depth' =>
      match skip_ws s with
      | EmptyString => None
      | String c rest as s' =>
          if Ascii.eqb c "{" then
            match skip_ws rest with
            | String "}" tail => Some (JObject [], tail)
            | _ =>
                match members depth' rest with
                | Some (ms, tail) => Some (JObject ms, tail)
                | None => None
                end
            end
          else if Ascii.eqb c "[" then
            match skip_ws rest with
            | String "]" tail => Some (JArray [], tail)
            | _ =>
                match elements depth' rest with
                | Some (vs, tail) => Some (JArray vs, tail)
                | None => None
                end
            end
          else if Ascii.eqb c double_quote then
            match string_body rest with
            | Some (str, tail) => Some (JString str, tail)
            | None => None
            end
          else if HasPrefix s' "true" then Some (JBool true, drop 4 s')
          else if HasPrefix s' "false" then Some (JBool false, drop 5 s')
          else if HasPrefix s' "null" then Some (JNull, drop 4 s')
          else if Spec.is_digit c || Ascii.eqb c "-" then
            let '(lex, tail) := number_lexeme s' in Some (JNumber lex, tail)
          else None
      end
  end
with members (depth : nat) (s : string) : option (list (string * json) * string) :=
  match depth with
  | O => None
  | S depth' =>
      match skip_ws s with
      | String q rest =>
          if Ascii.eqb q double_quote then
            match string_body rest with
            | Some (key, tail) =>
                match skip_ws tail with
                | String ":" tail1 =>
                    match value depth' tail1 with
                    | Some (v, tail2) =>
                        match skip_ws tail2 with
                        | String "," tail3 =>
                            match members depth' tail3 with
                            | Some (ms, tail4) => Some ((key, v) :: ms, tail4)
                            | None => None
                            end
                        | String "}" tail3 => Some ([(key, v)], tail3)
                        | _ => None
                        end
                    | None => None
                    end
                | _ => None
                end
            | None => None
            end
          else None
      | EmptyString => None
      end
  end
with elements (depth : nat) (s : string) : option (list json * string) :=
  match depth with
  | O => None
  | S depth' =>
      match value depth' s with
      | Some (v, tail) =>
          match skip_ws tail with
          | String "," tail1 =>
              match elements depth' tail1 with
              | Some (vs, tail2) => Some (v :: vs, tail2)
              | None => None
              end
          | String "]" tail1 => Some ([v], tail1)
          | _ => None
          end
      | None => None
      end
  end.

(** The JSON value a text denotes, when it is one JSON text and nothing
    else. *)
Definition parse (s : string) : option json :=
  match value (S (String.length s)) s with
  | Some (v, tail) =>
      match skip_ws tail with
      | EmptyString => Some v
      | String _ _ => None
      end
  | None => None
  end.

(** The member [key] of an object. *)
Fixpoint lookup (key : string) (ms : list (string * json)) : option json :=
  match ms with
  | [] => None
  | (k, v) :: ms' => if String.eqb k key then Some v else lookup key ms'
  end.

Definition member (key : string) (v : json) : option json :=
  match v with
  | JObject ms => lookup key ms
  | _ => None
  end.

(** The member reached by a path of keys. *)
Fixpoint at_path (path : list string) (v : json) : option json :=
  match path with
  | [] => Some v
  | key :: path' =>
      match member key v with
      | Some v' => at_path path' v'
      | None => None
      end
  end.

(** The member reached by [path] in the JSON text [text]. *)
Definition field (path : list string) (text : string) : option json :=
  match parse text with
  | Some v => at_path path v
  | None => None
  end.

End Json.


(** ** Observations on a run *)

(** Why a session ended: the four [return] statements of
    [startMonitoringSession], each with the error it wraps. *)
Inductive Outcome : Type :=
| ConnectFailed (cause : err)
| SubscribeFailed (cause : err)
| DeadlineSetFailed (cause : err)
| ReadFailedOrTimedOut (cause : err).

Definition error_of (o : Outcome) : err :=
  match o with
  | ConnectFailed cause => ErrorfW "connection failed: %w" cause
  | SubscribeFailed cause => ErrorfW "subscribe request failed: %w" cause
  | DeadlineSetFailed cause => ErrorfW "failed to set read deadline: %w" cause
  | ReadFailedOrTimedOut cause => ErrorfW "read timeout or disconnection: %w" cause
  end.

Definition is_Dial (e : event) : bool :=
  match e with EDial _ => true | _ => false end.

Definition is_WriteMessage (e : event) : bool :=
  match e with EWriteMessage _ _ => true | _ => false end.

Definition is_ReadMessage (e : event) : bool :=
  match e with EReadMessage => true | _ => false end.

Definition is_CombinedOutput (e : event) : bool :=
  match e with ECombinedOutput _ _ => true | _ => false end.

Definition is_Sleep (e : event) : bool :=
  match e with ESleep _ => true | _ => false end.

(** The line the supervisor logs when it hands over to the recovery
    executor. *)
Definition is_recovery_attempt (e : event) : bool :=
  match e with
  | ELog (Formatted format []) => String.eqb format "Attempting to execute command..."
  | _ => false
  end.

Definition count (p : event -> bool) (t : list event) : nat :=
  List.length (filter p t).

(** The two events of a call to [logPrintf]. *)
Definition logged (format : string) (v : list value) : list event :=
  [ELog (Formatted format v);
   ESentry hubScope (CaptureMessage (Formatted format v))].

(** The error of a read whose deadline has passed. *)
Definition i_o_timeout : err := LibError "i/o timeout".

(** A world in which every call succeeds, except that the stream goes silent
    after [k] messages: the read that follows them times out. *)
Definition silent_after (k : nat) : World :=
  {| os_Stat := fun _ _ => nil;
     os_WriteFile := fun _ _ _ _ => nil;
     os_ReadFile := fun _ _ => ("", nil);
     yaml_Unmarshal := fun _ cfg => (cfg, nil);
     sentry_Init := fun _ _ => nil;
     websocket_Dial := fun _ _ => nil;
     conn_WriteMessage := fun _ _ _ => nil;
     conn_SetReadDeadline := fun _ _ => nil;
     conn_ReadMessage := fun h =>
       if (k <=? count is_ReadMessage h)%nat then Some i_o_timeout else nil;
     time_Now := fun _ => 0;
     cmd_CombinedOutput := fun _ _ _ => ("", nil) |}.

(** A world with no configuration file, a read-only directory and an
    unreachable server. *)
Definition bare_world : World :=
  {| os_Stat := fun _ path => Some (NotExist path);
     os_WriteFile := fun _ _ _ _ => Some (LibError "read-only file system");
     os_ReadFile := fun _ path => ("", Some (NotExist path));
     yaml_Unmarshal := fun _ cfg => (cfg, nil);
     sentry_Init := fun _ _ => nil;
     websocket_Dial := fun _ _ => Some (LibError "dial tcp: connection refused");
     conn_WriteMessage := fun _ _ _ => nil;
     conn_SetReadDeadline := fun _ _ => nil;
     conn_ReadMessage := fun _ => Some i_o_timeout;
     time_Now := fun _ => 0;
     cmd_CombinedOutput := fun _ _ _ => ("", Some (LibError "exit status 1")) |}.

(** ** Kinds of events *)

Definition is_Close (e : event) : bool :=
  match e with EClose => true | _ => false end.

Definition is_SetReadDeadline (e : event) : bool :=
  match e with ESetReadDeadline _ => true | _ => false end.

Definition is_WriteFile (e : event) : bool :=
  match e with EWriteFile _ _ _ => true | _ => false end.

Definition is_SentryInit (e : event) : bool :=
  match e with ESentryInit _ => true | _ => false end.

Definition is_Sentry (e : event) : bool :=
  match e with ESentry _ _ => true | _ => false end.

Definition is_Exit (e : event) : bool :=
  match e with EExit _ => true | _ => false end.

(** What a session may do: log, report, and use its connection. *)
Definition session_event (e : event) : bool :=
  match e with
  | ELog _ | ESentry _ _ | EDial _ | EWriteMessage _ _
  | ESetReadDeadline _ | EReadMessage | EClose => true
  | _ => false
  end.

(** What the recovery executor may do: log, report, and run the command. *)
Definition executor_event (e : event) : bool :=
  match e with
  | ELog _ | ESentry _ _ | ECombinedOutput _ _ => true
  | _ => false
  end.

(** What the supervisor loop may do: the above, flush Sentry and sleep. *)
Definition supervisor_event (e : event) : bool :=
  match e with
  | ESentryFlush _ | ESleep _ => true
  | _ => session_event e || executor_event e
  end.

(** Every event of [m], in every world and after every history, is of the
    kind [P]. *)
Definition only {A} (P : event -> bool) (m : M A) : Prop :=
  forall w h, forallb P (events m w h) = true.

(** The level and the extras of the reports made to Sentry, in order. *)
Fixpoint reports (t : list event) : list (Scope * capture) :=
  match t with
  | [] => []
  | ESentry scope c :: t' => (scope, c) :: reports t'
  | _ :: t' => reports t'
  end.

(** A world whose server accepts the connection and then drops it: the
    subscribe message cannot be written. *)
Definition broken_pipe_world : World :=
  {| os_Stat := fun _ _ => nil;
     os_WriteFile := fun _ _ _ _ => nil;
     os_ReadFile := fun _ _ => ("", nil);
     yaml_Unmarshal := fun _ cfg => (cfg, nil);
     sentry_Init := fun _ _ => nil;
     websocket_Dial := fun _ _ => nil;
     conn_WriteMessage := fun _ _ _ => Some (LibError "write: broken pipe");
     conn_SetReadDeadline := fun _ _ => nil;
     conn_ReadMessage := fun _ => nil;
     time_Now := fun _ => 0;
     cmd_CombinedOutput := fun _ _ _ => ("", nil) |}.

(** ** The start-up of [main], as events *)

(** What [main] does about Sentry once the configuration [cfg] is loaded;
    [h] is the history up to there. *)
Definition sentry_start (w : World) (h : history) (cfg : Config) : list event :=
  if String.eqb (Sentry_DSN cfg) "" then []
  else
    ESentryInit (Sentry_DSN cfg)
    :: match sentry_Init w h (Sentry_DSN cfg) with
       | Some e => [ELog (Formatted "Sentry initialization failed: %v"
                                    [VError (Some e)])]
       | None => logged "Sentry initialized successfully." []
       end.

(** The events of a call to [logFatalf]. *)
Definition fatal (format : string) (v : list value) : list event :=
  [ELog (Prefixed "FATAL: " (Formatted format v));
   ESentry hubScope (CaptureMessage (Prefixed "FATAL: " (Formatted format v)));
   ESentryFlush (5 * GoTime.Second);
   EExit 1].

(** The events of a start-up that stops because the file cannot be loaded. *)
Definition load_failure (path : string) (e : err) : list event :=
  [EStat path; EReadFile path;
   ELog (Formatted "Failed to load configuration: %v" [VError (Some e)]);
   EExit 1].

(** A world with a configuration file that holds what [cfg] says, and a
    server that refuses connections. *)
Definition configured_world (cfg : Config) : World :=
  {| os_Stat := fun _ _ => nil;
     os_WriteFile := fun _ _ _ _ => nil;
     os_ReadFile := fun _ _ => ("target: ...", nil);
     yaml_Unmarshal := fun _ _ => (cfg, nil);
     sentry_Init := fun _ _ => Some (LibError "[Sentry] DsnParseError: invalid scheme");
     websocket_Dial := fun _ _ => Some (LibError "dial tcp: connection refused");
     conn_WriteMessage := fun _ _ _ => nil;
     conn_SetReadDeadline := fun _ _ => nil;
     conn_ReadMessage := fun _ => Some i_o_timeout;
     time_Now := fun _ => 0;
     cmd_CombinedOutput := fun _ _ _ => ("", nil) |}.

(** A world whose configuration file exists and cannot be read. *)
Definition unreadable_world : World :=
  {| os_Stat := fun _ _ => nil;
     os_WriteFile := fun _ _ _ _ => nil;
     os_ReadFile := fun _ _ => ("", Some (LibError "permission denied"));
     yaml_Unmarshal := fun _ cfg => (cfg, nil);
     sentry_Init := fun _ _ => nil;
     websocket_Dial := fun _ _ => nil;
     conn_WriteMessage := fun _ _ _ => nil;
     conn_SetReadDeadline := fun _ _ => nil;
     conn_ReadMessage := fun _ => nil;
     time_Now := fun _ => 0;
     cmd_CombinedOutput := fun _ _ _ => ("", nil) |}.

(** * Properties *)

(** ** Arithmetic of durations *)

Lemma wrap64_id z : GoInt.in_int64 z -> GoInt.wrap64 z = z.
Proof.
  unfold GoInt.in_int64, GoInt.min_int64, GoInt.max_int64, GoInt.wrap64.
  intros Hz. rewrite Z.mod_small by lia. lia.
Qed.

Lemma wrap64_range z : GoInt.in_int64 (GoInt.wrap64 z).
Proof.
  unfold GoInt.in_int64, GoInt.min_int64, GoInt.max_int64, GoInt.wrap64.
  pose proof (Z.mod_pos_bound (z + 2 ^ 63) (2 ^ 64) ltac:(lia)). lia.
Qed.

Lemma seconds_exact n :
  - GoTime.max_seconds <= n <= GoTime.max_seconds ->
  GoTime.seconds n = n * GoTime.Second.
Proof.
  unfold GoTime.seconds, GoInt.mul64, GoTime.max_seconds, GoTime.Second.
  intros Hn. apply wrap64_id.
  unfold GoInt.in_int64, GoInt.min_int64, GoInt.max_int64. lia.
Qed.

(** One second more than [max_seconds] no longer fits. *)
Example seconds_overflow :
  GoTime.seconds (GoTime.max_seconds + 1) = -9223372036709551616.
Proof. reflexivity. Qed.

(** ** Strings *)

Section StringFacts.

Import GoStrings.

Lemma append_empty_r (s : string) : s ++ "" = s.
Proof. induction s as [|c s IH]; simpl; [reflexivity | now rewrite IH]. Qed.

Lemma append_assoc (a b c : string) : (a ++ b) ++ c = a ++ b ++ c.
Proof. induction a as [|x a IH]; simpl; [reflexivity | now rewrite IH]. Qed.

Lemma length_append (a b : string) :
  String.length (a ++ b) = (String.length a + String.length b)%nat.
Proof. induction a as [|x a IH]; simpl; [reflexivity | now rewrite IH]. Qed.

Lemma drop_append (p r : string) : drop (String.length p) (p ++ r) = r.
Proof. induction p as [|c p IH]; simpl; [reflexivity | exact IH]. Qed.

Lemma take_append (r x : string) : take (String.length r) (r ++ x) = r.
Proof. induction r as [|c r IH]; simpl; [reflexivity | now rewrite IH]. Qed.

Lemma take_drop (n : nat) (s : string) : take n s ++ drop n s = s.
Proof.
  revert s; induction n as [|n IH]; intros [|c s]; simpl; try reflexivity.
  now rewrite IH.
Qed.

Lemma HasPrefix_true (s p : string) :
  HasPrefix s p = true -> s = p ++ drop (String.length p) s.
Proof.
  revert s; induction p as [|c p IH]; intros s H; simpl in *.
  - reflexivity.
  - destruct s as [|d s]; [discriminate|].
    apply andb_true_iff in H as [Hc Hp].
    apply Ascii.eqb_eq in Hc; subst d.
    simpl. f_equal. now apply IH.
Qed.

Lemma HasPrefix_append (p r : string) : HasPrefix (p ++ r) p = true.
Proof.
  induction p as [|c p IH]; simpl; [reflexivity|].
  now rewrite Ascii.eqb_refl, IH.
Qed.

Lemma HasPrefix_false (s p : string) :
  HasPrefix s p = false -> forall r, s <> p ++ r.
Proof.
  intros H r ->. now rewrite HasPrefix_append in H.
Qed.

Lemma HasSuffix_true (s x : string) :
  HasSuffix s x = true ->
  s = take (String.length s - String.length x) s ++ x.
Proof.
  unfold HasSuffix; intros H.
  apply andb_true_iff in H as [_ H]. apply String.eqb_eq in H.
  transitivity (take (String.length s - String.length x) s
                ++ drop (String.length s - String.length x) s).
  - symmetry; apply take_drop.
  - now rewrite H.
Qed.

Lemma HasSuffix_append (r x : string) : HasSuffix (r ++ x) x = true.
Proof.
  unfold HasSuffix. rewrite length_append.
  apply andb_true_iff; split.
  - apply Nat.leb_le; lia.
  - replace (String.length r + String.length x - String.length x)%nat
      with (String.length r) by lia.
    rewrite drop_append. apply String.eqb_refl.
Qed.

Lemma HasSuffix_false (s x : string) :
  HasSuffix s x = false -> forall r, s <> r ++ x.
Proof.
  intros H r ->. now rewrite HasSuffix_append in H.
Qed.

Lemma TrimPrefix_spec (s p : string) :
  Spec.without_prefix p s (TrimPrefix s p).
Proof.
  unfold Spec.without_prefix, TrimPrefix.
  destruct (HasPrefix s p) eqn:H.
  - left; now apply HasPrefix_true.
  - right; split; [reflexivity | now apply HasPrefix_false].
Qed.

Lemma TrimSuffix_spec (s x : string) :
  Spec.without_suffix x s (TrimSuffix s x).
Proof.
  unfold Spec.without_suffix, TrimSuffix.
  destruct (HasSuffix s x) eqn:H.
  - left; now apply HasSuffix_true.
  - right; split; [reflexivity | now apply HasSuffix_false].
Qed.

Lemma Sprintf_wss (host path : string) :
  Sprintf "wss://%s%s" [host; path] = "wss://" ++ host ++ path.
Proof. simpl. now rewrite append_empty_r. Qed.

Lemma eqb_empty_false (s : string) : s <> "" -> String.eqb s "" = false.
Proof. intros H. now apply String.eqb_neq. Qed.

End StringFacts.

(** ** Effective cooldown and idle timeout *)

(** C4 (as amended): a configured cooldown [C <= 0] gives exactly five
    minutes; a configured cooldown [0 < C <= 9223372036] (the whole seconds a
    [time.Duration] can hold) gives [C] seconds.  In both cases the duration
    used is strictly positive. *)
Theorem effective_cooldown (cfg : Config) :
  Cooldown cfg <= GoTime.max_seconds ->
  cooldownDuration cfg
  = (if Cooldown cfg <=? 0 then 5 * GoTime.Minute
     else Cooldown cfg * GoTime.Second)
  /\ 0 < cooldownDuration cfg.
Proof.
  intros Hmax. unfold cooldownDuration.
  destruct (Z.leb_spec (Cooldown cfg) 0) as [Hle | Hgt].
  - split; [reflexivity | reflexivity].
  - rewrite seconds_exact by (unfold GoTime.max_seconds in *; lia).
    split; [reflexivity | unfold GoTime.Second; lia].
Qed.

Lemma effective_cooldown_witness :
  cooldownDuration (mkConfig "misskey.io" "" 10 (-3) "./script.sh" "")
  = 300000000000
  /\ cooldownDuration (mkConfig "misskey.io" "" 10 42 "./script.sh" "")
  = 42000000000.
Proof.
  split.
  - apply (effective_cooldown (mkConfig "misskey.io" "" 10 (-3) "./script.sh" "")).
    vm_compute; discriminate.
  - apply (effective_cooldown (mkConfig "misskey.io" "" 10 42 "./script.sh" "")).
    vm_compute; discriminate.
Defined.

(** C4 (as stated) fails: a positive cooldown of 9223372037 seconds does not
    give 9223372037 seconds; the product wraps around and the duration used is
    negative. *)
Lemma cooldown_overflow_counterexample :
  let cfg := mkConfig "misskey.io" "" 10 9223372037 "./script.sh" "" in
  0 < Cooldown cfg
  /\ cooldownDuration cfg <> Cooldown cfg * GoTime.Second
  /\ cooldownDuration cfg = -9223372036709551616.
Proof.
  cbv zeta. split; [reflexivity|]. split; [|reflexivity].
  vm_compute. discriminate.
Qed.

(** C1: with [timeout: 0] (or no [timeout] key at all) the idle timeout used
    is zero: no default takes its place, and the first read deadline of the
    session is the current instant itself. *)
Theorem timeout_zero_used_as_is (w : World) (h : history) :
  let cfg := mkConfig "misskey.io" "" 0 300 "./script.sh" "" in
  timeoutDuration cfg = 0
  /\ 0 < cooldownDuration cfg
  /\ exists rest,
       events (readLoop 1 (timeoutDuration cfg)) w h
       = ESetReadDeadline (time_Now w h) :: rest.
Proof.
  cbv zeta. split; [reflexivity|]. split; [reflexivity|].
  unfold events, timeoutDuration; simpl.
  change (GoTime.seconds 0) with 0.
  unfold bind, call, GoTime.Add; simpl.
  rewrite Z.add_0_r, app_nil_r.
  destruct (conn_SetReadDeadline w h (time_Now w h)) as [e|]; simpl.
  - eexists; reflexivity.
  - destruct (conn_ReadMessage w _) as [e|]; simpl; eexists; reflexivity.
Qed.

(** ** Target address *)

(** C5: when a URL is configured (and a domain too), the URL is returned as
    it is, whatever the domain. *)
Theorem url_takes_precedence (cfg : Config) :
  Target_URL cfg <> "" ->
  Target_Domain cfg <> "" ->
  getTargetURL cfg = (Target_URL cfg, nil)
  /\ forall domain',
       getTargetURL (mkConfig domain' (Target_URL cfg) (Timeout cfg)
                              (Cooldown cfg) (Command cfg) (Sentry_DSN cfg))
       = getTargetURL cfg.
Proof.
  intros Hurl _. unfold getTargetURL; simpl.
  rewrite (eqb_empty_false _ Hurl); simpl. split; [reflexivity|].
  intros domain'. reflexivity.
Qed.

Lemma url_takes_precedence_witness :
  getTargetURL
    (mkConfig "misskey.io" "wss://example.test/streaming?i=1" 10 300 "./script.sh" "")
  = ("wss://example.test/streaming?i=1", nil).
Proof.
  apply (url_takes_precedence
           (mkConfig "misskey.io" "wss://example.test/streaming?i=1" 10 300
                     "./script.sh" ""));
    simpl; discriminate.
Defined.

(** C6 (as amended): with no URL and a non-empty domain, the address is
    [wss://<host>/streaming], where [<host>] is the domain without a leading
    [https://], if it has one, and then without one trailing [/], if it has
    one.  No other scheme prefix is removed. *)
Theorem domain_resolution (cfg : Config) :
  Target_URL cfg = "" ->
  Target_Domain cfg <> "" ->
  exists d1 host,
    Spec.without_prefix "https://" (Target_Domain cfg) d1
    /\ Spec.without_suffix "/" d1 host
    /\ getTargetURL cfg = ("wss://" ++ host ++ "/streaming", nil).
Proof.
  intros Hurl Hdom.
  exists (GoStrings.TrimPrefix (Target_Domain cfg) "https://").
  exists (GoStrings.TrimSuffix
            (GoStrings.TrimPrefix (Target_Domain cfg) "https://") "/").
  split; [apply TrimPrefix_spec|]. split; [apply TrimSuffix_spec|].
  unfold getTargetURL. rewrite Hurl, (eqb_empty_false _ Hdom).
  cbv beta iota zeta delta [negb String.eqb].
  now rewrite Sprintf_wss.
Qed.

Lemma domain_resolution_witness :
  exists d1 host,
    Spec.without_prefix "https://" "https://misskey.io/" d1
    /\ Spec.without_suffix "/" d1 host
    /\ getTargetURL (mkConfig "https://misskey.io/" "" 10 300 "./script.sh" "")
       = ("wss://" ++ host ++ "/streaming", nil).
Proof.
  apply (domain_resolution
           (mkConfig "https://misskey.io/" "" 10 300 "./script.sh" ""));
    simpl; [reflexivity | discriminate].
Defined.

(** C6 (as stated) fails: the scheme prefix [http://] of a domain is not
    stripped. *)
Lemma scheme_not_stripped_counterexample :
  let cfg := mkConfig "http://misskey.io" "" 10 300 "./script.sh" "" in
  Target_URL cfg = ""
  /\ Target_Domain cfg <> ""
  /\ Spec.resolve_domain (Target_Domain cfg) = "wss://misskey.io/streaming"
  /\ getTargetURL cfg = ("wss://http://misskey.io/streaming", nil)
  /\ getTargetURL cfg <> (Spec.resolve_domain (Target_Domain cfg), nil).
Proof.
  cbv zeta. repeat split; try reflexivity; vm_compute; discriminate.
Qed.

(** C7: the domains [misskey.io] and [https://misskey.io/] resolve to the
    same address, [wss://misskey.io/streaming]. *)
Theorem resolution_of_misskey_io (timeout cooldown : Z) (command dsn : string) :
  getTargetURL (mkConfig "misskey.io" "" timeout cooldown command dsn)
  = ("wss://misskey.io/streaming", nil)
  /\ getTargetURL (mkConfig "https://misskey.io/" "" timeout cooldown command dsn)
  = ("wss://misskey.io/streaming", nil).
Proof. split; reflexivity. Qed.

(** ** Tokenizing the recovery command *)

Lemma FieldsFunc_step_spaces f (l : list (nat * GoStrings.rune)) spans :
  forallb (fun x => f (snd x)) l = true ->
  fold_left (GoStrings.FieldsFunc_step f) l (spans, None) = (spans, None).
Proof.
  induction l as [|[i r] l IH]; simpl; intros H; [reflexivity|].
  apply andb_true_iff in H as [Hr Hl]. rewrite Hr. now apply IH.
Qed.

Lemma Fields_whitespace_only (s : string) :
  GoStrings.whitespace_only s = true -> GoStrings.Fields s = [].
Proof.
  unfold GoStrings.whitespace_only, GoStrings.Fields, GoStrings.FieldsFunc.
  intros H. now rewrite FieldsFunc_step_spaces.
Qed.

(** Once a field has begun, the result is not empty. *)
Lemma FieldsFunc_step_started f (l : list (nat * GoStrings.rune)) spans start :
  (spans <> [] \/ start <> None) ->
  let '(spans', start') := fold_left (GoStrings.FieldsFunc_step f) l (spans, start) in
  spans' <> [] \/ start' <> None.
Proof.
  revert spans start; induction l as [|[i r] l IH]; simpl; intros spans start H.
  - exact H.
  - destruct (f r), start as [b|]; apply IH.
    + left. now destruct spans.
    + destruct H as [H|H]; [now left | now elim H].
    + now right.
    + now right.
Qed.

Lemma FieldsFunc_step_nonspace f (l : list (nat * GoStrings.rune)) :
  forallb (fun x => f (snd x)) l = false ->
  let '(spans', start') := fold_left (GoStrings.FieldsFunc_step f) l ([], None) in
  spans' <> [] \/ start' <> None.
Proof.
  assert (G : forall spans,
             forallb (fun x => f (snd x)) l = false ->
             let '(spans', start') :=
               fold_left (GoStrings.FieldsFunc_step f) l (spans, None) in
             spans' <> [] \/ start' <> None).
  { induction l as [|[i r] l IH]; simpl; intros spans H; [discriminate|].
    destruct (f r) eqn:Hr; simpl in H.
    - now apply IH.
    - apply FieldsFunc_step_started. now right. }
  apply G.
Qed.

(** The recovery command has no token exactly when it is made of white space
    only. *)
Lemma Fields_empty_iff (s : string) :
  GoStrings.Fields s = [] <-> GoStrings.whitespace_only s = true.
Proof.
  split; [|apply Fields_whitespace_only].
  unfold GoStrings.whitespace_only, GoStrings.Fields, GoStrings.FieldsFunc.
  intros H.
  destruct (forallb _ (GoStrings.range s)) eqn:E; [reflexivity|exfalso].
  pose proof (FieldsFunc_step_nonspace GoStrings.IsSpace _ E) as G.
  destruct (fold_left _ _ _) as [spans start].
  destruct start as [b|].
  - apply map_eq_nil in H. now destruct spans.
  - apply map_eq_nil in H. destruct G as [G|G]; [now apply G | now apply G].
Qed.

Example whitespace_only_samples :
  GoStrings.whitespace_only "" = true
  /\ GoStrings.whitespace_only "   " = true
  /\ GoStrings.whitespace_only (String (ascii_of_nat 9)
                                  (String (ascii_of_nat 10) " ")) = true
  /\ GoStrings.whitespace_only (String (ascii_of_nat 194)
                                  (String (ascii_of_nat 160) "")) = true
  /\ GoStrings.whitespace_only (String (ascii_of_nat 227)
                                  (String (ascii_of_nat 128)
                                     (String (ascii_of_nat 128) " "))) = true
  /\ GoStrings.whitespace_only " ./script.sh " = false.
Proof. repeat split. Qed.

Example Fields_samples :
  GoStrings.Fields "  ./script.sh  restart	now " = ["./script.sh"; "restart"; "now"]
  /\ GoStrings.Fields "systemctl restart misskey" = ["systemctl"; "restart"; "misskey"].
Proof. split; reflexivity. Qed.

(** ** Runs of the effectful functions *)

Lemma logPrintf_run format v w h :
  logPrintf format v w h = (Done tt, logged format v).
Proof. reflexivity. Qed.

Lemma count_app p (t1 t2 : list event) :
  count p (t1 ++ t2)%list = (count p t1 + count p t2)%nat.
Proof. unfold count. now rewrite filter_app, length_app. Qed.

Lemma bind_Done {A B} (m : M A) (f : A -> M B) w h a t1 :
  m w h = (Done a, t1) ->
  bind m f w h
  = (fst (f a w (h ++ t1)%list), (t1 ++ snd (f a w (h ++ t1)%list))%list).
Proof.
  intros H. unfold bind. rewrite H. now destruct (f a w (h ++ t1)%list).
Qed.

Lemma bind_Exited {A B} (m : M A) (f : A -> M B) w h c t1 :
  m w h = (Exited c, t1) -> bind m f w h = (Exited c, t1).
Proof. intros H. unfold bind. now rewrite H. Qed.

Lemma bind_Running {A B} (m : M A) (f : A -> M B) w h t1 :
  m w h = (Running, t1) -> bind m f w h = (Running, t1).
Proof. intros H. unfold bind. now rewrite H. Qed.

(** *** The recovery executor *)

(** The three ways through [executeCommandAndReport]: no token; the command
    fails; the command succeeds. *)
Ltac executor_cases :=
  unfold outcome, events, executeCommandAndReport;
  destruct (GoStrings.Fields _) as [|?name ?args];
  [ | unfold bind, call; simpl;
      match goal with
      | |- context [cmd_CombinedOutput ?w ?h ?n ?a] =>
          destruct (cmd_CombinedOutput w h n a) as [?out [?e|]]
      end ].

Lemma executeCommandAndReport_returns commandStr w h :
  outcome (executeCommandAndReport commandStr) w h = Done tt.
Proof. executor_cases; reflexivity. Qed.

Lemma executeCommandAndReport_launches commandStr w h :
  count is_CombinedOutput (events (executeCommandAndReport commandStr) w h)
  = if GoStrings.whitespace_only commandStr then 0%nat else 1%nat.
Proof.
  unfold events, executeCommandAndReport.
  destruct (GoStrings.whitespace_only commandStr) eqn:E.
  - now rewrite (Fields_whitespace_only _ E).
  - destruct (GoStrings.Fields commandStr) as [|name args] eqn:F.
    + apply Fields_empty_iff in F. congruence.
    + unfold bind, call; simpl.
      destruct (cmd_CombinedOutput w h name args) as [out [e|]]; reflexivity.
Qed.

Lemma executeCommandAndReport_no_network commandStr w h :
  count is_WriteMessage (events (executeCommandAndReport commandStr) w h) = 0%nat
  /\ count is_Dial (events (executeCommandAndReport commandStr) w h) = 0%nat.
Proof. executor_cases; split; reflexivity. Qed.

(** C8: for a recovery command that is empty or made of white space only,
    the executor launches nothing: it logs that the command is empty, and
    returns. *)
Theorem empty_command_launches_nothing (commandStr : string) (w : World) (h : history) :
  commandStr = "" \/ GoStrings.whitespace_only commandStr = true ->
  executeCommandAndReport commandStr w h
  = (Done tt, logged "Error: Recovery command string is empty" [])
  /\ count is_CombinedOutput (events (executeCommandAndReport commandStr) w h) = 0%nat.
Proof.
  intros H.
  assert (E : GoStrings.whitespace_only commandStr = true)
    by (destruct H as [-> | H]; [reflexivity | exact H]).
  split.
  - unfold executeCommandAndReport.
    now rewrite (Fields_whitespace_only _ E).
  - now rewrite executeCommandAndReport_launches, E.
Qed.

Lemma empty_command_launches_nothing_witness :
  executeCommandAndReport "  	 " bare_world []
  = (Done tt, logged "Error: Recovery command string is empty" [])
  /\ executeCommandAndReport "" bare_world []
  = (Done tt, logged "Error: Recovery command string is empty" []).
Proof.
  split.
  - apply (empty_command_launches_nothing "  	 " bare_world []).
    right; reflexivity.
  - apply (empty_command_launches_nothing "" bare_world []).
    left; reflexivity.
Defined.

(** *** The read loop *)

Lemma readLoop_S reads d w h :
  readLoop (S reads) d w h
  = let deadline := GoTime.Add (time_Now w h) d in
    match conn_SetReadDeadline w h deadline with
    | Some e => (Done (Some (error_of (DeadlineSetFailed e))),
                 [ESetReadDeadline deadline])
    | None =>
        match conn_ReadMessage w (h ++ [ESetReadDeadline deadline])%list with
        | Some e => (Done (Some (error_of (ReadFailedOrTimedOut e))),
                     [ESetReadDeadline deadline; EReadMessage])
        | None =>
            let '(r, t) :=
              readLoop reads d w (h ++ [ESetReadDeadline deadline; EReadMessage])%list in
            (r, ESetReadDeadline deadline :: EReadMessage :: t)
        end
    end.
Proof.
  cbn [readLoop]. unfold bind, call. cbn [app]. rewrite app_nil_r.
  cbv zeta.
  destruct (conn_SetReadDeadline w h _) as [e|]; [reflexivity|].
  destruct (conn_ReadMessage w _) as [e|]; [reflexivity|].
  rewrite <- app_assoc. cbn [app].
  destruct (readLoop reads d w _) as [[e | c |] t]; reflexivity.
Qed.

Lemma readLoop_outcome reads d w h :
  match outcome (readLoop reads d) w h with
  | Done e =>
      exists cause,
        e = Some (error_of (DeadlineSetFailed cause))
        \/ e = Some (error_of (ReadFailedOrTimedOut cause))
  | Exited _ => False
  | Running => count is_ReadMessage (events (readLoop reads d) w h) = reads
  end.
Proof.
  unfold outcome, events.
  revert h; induction reads as [|reads IH]; intros h; [reflexivity|].
  rewrite readLoop_S; cbv zeta.
  destruct (conn_SetReadDeadline w h _) as [e|]; [simpl; eauto|].
  destruct (conn_ReadMessage w _) as [e|]; [simpl; eauto|].
  specialize (IH (h ++ [ESetReadDeadline (GoTime.Add (time_Now w h) d);
                        EReadMessage])%list).
  destruct (readLoop reads d w _) as [[e | c |] t]; simpl in *; auto.
  unfold count in *; simpl. now rewrite IH.
Qed.

Lemma readLoop_quiet reads d w h :
  count is_WriteMessage (events (readLoop reads d) w h) = 0%nat
  /\ count is_Dial (events (readLoop reads d) w h) = 0%nat
  /\ count is_CombinedOutput (events (readLoop reads d) w h) = 0%nat.
Proof.
  unfold events.
  revert h; induction reads as [|reads IH]; intros h; [repeat split|].
  rewrite readLoop_S; cbv zeta.
  destruct (conn_SetReadDeadline w h _) as [e|]; [repeat split|].
  destruct (conn_ReadMessage w _) as [e|]; [repeat split|].
  specialize (IH (h ++ [ESetReadDeadline (GoTime.Add (time_Now w h) d);
                        EReadMessage])%list).
  destruct (readLoop reads d w _) as [r t]; simpl in *. exact IH.
Qed.

(** *** The session *)

Lemma startMonitoringSession_run reads url cfg w h :
  let connecting := logged "Connecting to Misskey Streaming API..." [] in
  let subscribe := EWriteMessage TextMessage SubscribePayload in
  let listening := logged "Monitoring started (Listening for messages)..." [] in
  startMonitoringSession reads url cfg w h
  = match websocket_Dial w (h ++ connecting)%list url with
    | Some e =>
        (Done (Some (error_of (ConnectFailed e))), connecting ++ [EDial url])%list
    | None =>
        match conn_WriteMessage w (h ++ connecting ++ [EDial url])%list
                                TextMessage SubscribePayload with
        | Some e =>
            (Done (Some (error_of (SubscribeFailed e))),
             connecting ++ [EDial url; subscribe; EClose])%list
        | None =>
            let h' := (h ++ connecting ++ [EDial url; subscribe] ++ listening)%list in
            match readLoop reads (timeoutDuration cfg) w h' with
            | (Done e, t) =>
                (Done e,
                 connecting ++ [EDial url; subscribe] ++ listening ++ t ++ [EClose])%list
            | (Exited c, t) =>
                (Exited c, connecting ++ [EDial url; subscribe] ++ listening ++ t)%list
            | (Running, t) =>
                (Running, connecting ++ [EDial url; subscribe] ++ listening ++ t)%list
            end
        end
    end.
Proof.
  cbv zeta. unfold startMonitoringSession, defer_Close, logPrintf, log_Print.
  unfold bind, call, emit, ret, logged. cbn [app].
  destruct (websocket_Dial w _ url) as [e|]; [reflexivity|].
  repeat (rewrite <- app_assoc; cbn [app]).
  destruct (conn_WriteMessage w _ _ _) as [e|]; [reflexivity|].
  repeat (rewrite <- app_assoc; cbn [app]).
  destruct (readLoop reads (timeoutDuration cfg) w _) as [[e | c |] t];
    cbn [app]; reflexivity.
Qed.

(** C2: a session never returns [nil].  When it returns, it returns one of
    the four wrapped errors (connect, subscribe, set-deadline, read); it never
    ends the process; and as long as it has not returned, it is in the read
    loop, every read so far having delivered a message. *)
Theorem session_ends_in_failure (reads : nat) (url : string) (cfg : Config)
    (w : World) (h : history) :
  match outcome (startMonitoringSession reads url cfg) w h with
  | Done e => e <> nil /\ exists o, e = Some (error_of o)
  | Exited _ => False
  | Running =>
      count is_ReadMessage (events (startMonitoringSession reads url cfg) w h)
      = reads
  end.
Proof.
  unfold outcome, events. rewrite startMonitoringSession_run; cbv zeta.
  destruct (websocket_Dial w _ url) as [e|].
  { simpl; split; [discriminate | now exists (ConnectFailed e)]. }
  destruct (conn_WriteMessage w _ _ _) as [e|].
  { simpl; split; [discriminate | now exists (SubscribeFailed e)]. }
  match goal with
  | |- context [readLoop reads ?d w ?h'] =>
      pose proof (readLoop_outcome reads d w h') as L
  end.
  unfold outcome, events in L.
  destruct (readLoop reads _ w _) as [[e | c |] t]; simpl in *.
  - destruct L as [cause [-> | ->]]; (split; [discriminate|]).
    + now exists (DeadlineSetFailed cause).
    + now exists (ReadFailedOrTimedOut cause).
  - exact L.
  - exact L.
Qed.

(** A session does return: when the stream goes silent after [k] messages,
    the session observed for more than [k] reads has returned the read
    error; observed for [k] reads or fewer, it is still listening. *)
Lemma readLoop_silent_after k reads d h :
  (count is_ReadMessage h <= k < count is_ReadMessage h + reads)%nat ->
  outcome (readLoop reads d) (silent_after k) h
  = Done (Some (error_of (ReadFailedOrTimedOut i_o_timeout))).
Proof.
  unfold outcome.
  revert h; induction reads as [|reads IH]; intros h Hk; [lia|].
  rewrite readLoop_S; cbv zeta.
  cbn [silent_after conn_SetReadDeadline conn_ReadMessage].
  rewrite count_app. cbn [count filter is_ReadMessage List.length].
  rewrite Nat.add_0_r.
  destruct (Nat.leb_spec k (count is_ReadMessage h)) as [Hle | Hlt].
  - reflexivity.
  - match goal with
    | |- context [readLoop reads d _ ?h'] => specialize (IH h')
    end.
    rewrite count_app in IH. cbn [count filter is_ReadMessage List.length] in IH.
    destruct (readLoop reads d _ _) as [r t]. simpl in *. apply IH. lia.
Qed.

Lemma readLoop_still_listening k reads d h :
  (count is_ReadMessage h + reads <= k)%nat ->
  outcome (readLoop reads d) (silent_after k) h = Running.
Proof.
  unfold outcome.
  revert h; induction reads as [|reads IH]; intros h Hk; [reflexivity|].
  rewrite readLoop_S; cbv zeta.
  cbn [silent_after conn_SetReadDeadline conn_ReadMessage].
  rewrite count_app. cbn [count filter is_ReadMessage List.length].
  rewrite Nat.add_0_r.
  destruct (Nat.leb_spec k (count is_ReadMessage h)) as [Hle | Hlt]; [lia|].
  match goal with
  | |- context [readLoop reads d _ ?h'] => specialize (IH h')
  end.
  rewrite count_app in IH. cbn [count filter is_ReadMessage List.length] in IH.
  destruct (readLoop reads d _ _) as [r t]. simpl in *. apply IH. lia.
Qed.

Lemma session_returns_when_stream_goes_silent k reads url cfg :
  outcome (startMonitoringSession reads url cfg) (silent_after k) []
  = if (k <? reads)%nat
    then Done (Some (error_of (ReadFailedOrTimedOut i_o_timeout)))
    else Running.
Proof.
  unfold outcome. rewrite startMonitoringSession_run; cbv zeta.
  cbn [silent_after websocket_Dial conn_WriteMessage].
  match goal with
  | |- context [readLoop reads ?d _ ?h'] =>
      pose proof (readLoop_silent_after k reads d h') as Hs;
      pose proof (readLoop_still_listening k reads d h') as Hr
  end.
  unfold outcome in Hs, Hr. cbn in Hs, Hr.
  destruct (Nat.ltb_spec k reads) as [Hlt | Hge].
  - specialize (Hs ltac:(lia)).
    destruct (readLoop reads _ _ _) as [r t]; simpl in *. now rewrite Hs.
  - specialize (Hr ltac:(lia)).
    destruct (readLoop reads _ _ _) as [r t]; simpl in *. now rewrite Hr.
Qed.

(** *** The subscription *)

(** C9: read as a JSON text, the subscription payload is an object whose
    [body] has channel [globalTimeline], id ["1"] (a string) and parameters
    [withRenotes] and [minimize] both [true]; and a session sends this
    payload, as a text frame, once when the connection is made and never
    when it is not. *)
Theorem subscription_payload :
  Json.parse SubscribePayload
  = Some (Json.JObject
            [("type", Json.JString "connect");
             ("body",
              Json.JObject
                [("channel", Json.JString "globalTimeline");
                 ("id", Json.JString "1");
                 ("params",
                  Json.JObject
                    [("withRenotes", Json.JBool true);
                     ("minimize", Json.JBool true)])])])
  /\ Json.field ["body"; "channel"] SubscribePayload
     = Some (Json.JString "globalTimeline")
  /\ Json.field ["body"; "id"] SubscribePayload = Some (Json.JString "1")
  /\ Json.field ["body"; "params"; "withRenotes"] SubscribePayload
     = Some (Json.JBool true)
  /\ Json.field ["body"; "params"; "minimize"] SubscribePayload
     = Some (Json.JBool true)
  /\ (forall reads url cfg w h,
        filter is_WriteMessage (events (startMonitoringSession reads url cfg) w h)
        = match websocket_Dial
                  w (h ++ logged "Connecting to Misskey Streaming API..." [])%list url
          with
          | None => [EWriteMessage TextMessage SubscribePayload]
          | Some _ => []
          end).
Proof.
  assert (P : Json.parse SubscribePayload
              = Some (Json.JObject
                        [("type", Json.JString "connect");
                         ("body",
                          Json.JObject
                            [("channel", Json.JString "globalTimeline");
                             ("id", Json.JString "1");
                             ("params",
                              Json.JObject
                                [("withRenotes", Json.JBool true);
                                 ("minimize", Json.JBool true)])])]))
    by (vm_compute; reflexivity).
  split; [exact P|].
  unfold Json.field. rewrite P.
  do 4 (split; [reflexivity|]).
  intros reads url cfg w h. unfold events.
  {
    rewrite startMonitoringSession_run; cbv zeta.
    destruct (websocket_Dial w _ url) as [e|]; [reflexivity|].
    destruct (conn_WriteMessage w _ _ _) as [e|]; [reflexivity|].
    match goal with
    | |- context [readLoop reads ?d w ?h'] =>
        destruct (readLoop_quiet reads d w h') as [Q _]
    end.
    unfold events, count in Q. apply length_zero_iff_nil in Q.
    destruct (readLoop reads _ w _) as [[e | c |] t]; cbn [snd] in *;
      cbn [app filter is_WriteMessage logged];
      repeat rewrite filter_app; rewrite Q; reflexivity. }
Qed.

(** *** One turn of the supervisor *)

Lemma supervisor_S cycles reads url cfg cd w h :
  supervisor (S cycles) reads url cfg cd w h
  = match cycle reads url cfg cd w h with
    | (Done _, t) =>
        (fst (supervisor cycles reads url cfg cd w (h ++ t)%list),
         (t ++ snd (supervisor cycles reads url cfg cd w (h ++ t)%list))%list)
    | (Exited c, t) => (Exited c, t)
    | (Running, t) => (Running, t)
    end.
Proof.
  cbn [supervisor]. unfold bind.
  destruct (cycle reads url cfg cd w h) as [[[] | c |] t]; try reflexivity.
  now destruct (supervisor cycles reads url cfg cd w _).
Qed.

Lemma cycle_run reads url cfg cd w h :
  cycle reads url cfg cd w h
  = match startMonitoringSession reads url cfg w h with
    | (Done err, session) =>
        let report :=
          (logged "Monitor session ended with error: %v" [VError err]
           ++ [ESentry (mkScope (Some LevelError) []) (CaptureException err)]
           ++ logged "Attempting to execute command..." [])%list in
        let recovery :=
          events (executeCommandAndReport (Command cfg)) w
                 (h ++ session ++ report)%list in
        let cooldown :=
          (logged ">>> Waiting %s before reconnecting..." [VDuration cd]
           ++ [ESentryFlush (5 * GoTime.Second); ESleep cd]
           ++ logged ">>> Cooldown finished. Retrying connection..." [])%list in
        (Done tt, session ++ report ++ recovery ++ cooldown)%list
    | (Exited c, session) => (Exited c, session)
    | (Running, session) => (Running, session)
    end.
Proof.
  unfold cycle. unfold bind at 1.
  destruct (startMonitoringSession reads url cfg w h) as [[err | c |] session];
    try reflexivity.
  cbv [bind emit logPrintf log_Print logged events]; cbv zeta.
  repeat (rewrite <- app_assoc; cbn [app]).
  match goal with
  | |- context [executeCommandAndReport ?c w ?hh] =>
      pose proof (executeCommandAndReport_returns c w hh) as Hr;
      unfold outcome in Hr;
      destruct (executeCommandAndReport c w hh) as [r t]
  end.
  cbn [fst snd] in *. subst r.
  repeat (rewrite <- app_assoc; cbn [app]). reflexivity.
Qed.

Lemma executeCommandAndReport_no_sleep commandStr w h :
  count is_Sleep (events (executeCommandAndReport commandStr) w h) = 0%nat
  /\ count is_recovery_attempt (events (executeCommandAndReport commandStr) w h)
     = 0%nat.
Proof. executor_cases; split; reflexivity. Qed.

(** C3 (as amended): when the connect of a session fails, the session
    returns the connect error without sending a subscribe message; the
    supervisor reports it, hands over to the recovery executor exactly once,
    with the configured command, sleeps once for the cooldown, and only then
    goes on to the next connection attempt.  The executor runs the command
    exactly once when the command has a token, and runs nothing when the
    command is blank (empty or white space only). *)
Theorem connect_failure_cycle (reads : nat) (url : string) (cfg : Config)
    (w : World) (h : history) (cause : err) :
  websocket_Dial w (h ++ logged "Connecting to Misskey Streaming API..." [])%list url
  = Some cause ->
  let cd := cooldownDuration cfg in
  let failure := Some (error_of (ConnectFailed cause)) in
  let session :=
    (logged "Connecting to Misskey Streaming API..." [] ++ [EDial url])%list in
  let report :=
    (logged "Monitor session ended with error: %v" [VError failure]
     ++ [ESentry (mkScope (Some LevelError) []) (CaptureException failure)]
     ++ logged "Attempting to execute command..." [])%list in
  let recovery :=
    events (executeCommandAndReport (Command cfg)) w (h ++ session ++ report)%list in
  let cooldown :=
    (logged ">>> Waiting %s before reconnecting..." [VDuration cd]
     ++ [ESentryFlush (5 * GoTime.Second); ESleep cd]
     ++ logged ">>> Cooldown finished. Retrying connection..." [])%list in
  let turn := (session ++ report ++ recovery ++ cooldown)%list in
  startMonitoringSession reads url cfg w h = (Done failure, session)
  /\ cycle reads url cfg cd w h = (Done tt, turn)
  /\ count is_WriteMessage turn = 0%nat
  /\ count is_Dial turn = 1%nat
  /\ count is_recovery_attempt turn = 1%nat
  /\ count is_CombinedOutput turn
     = (if GoStrings.whitespace_only (Command cfg) then 0%nat else 1%nat)
  /\ count is_Sleep turn = 1%nat
  /\ forall cycles,
       events (supervisor (S cycles) reads url cfg cd) w h
       = (turn ++ events (supervisor cycles reads url cfg cd) w (h ++ turn))%list.
Proof.
  intros Hdial cd failure session report recovery cooldown turn.
  assert (Hs : startMonitoringSession reads url cfg w h = (Done failure, session)).
  { rewrite startMonitoringSession_run; cbv zeta. now rewrite Hdial. }
  assert (Hc : cycle reads url cfg cd w h = (Done tt, turn)).
  { rewrite cycle_run, Hs. reflexivity. }
  destruct (executeCommandAndReport_no_network (Command cfg) w
              (h ++ session ++ report)%list) as [Hw Hd].
  pose proof (executeCommandAndReport_launches (Command cfg) w
                (h ++ session ++ report)%list) as Hl.
  destruct (executeCommandAndReport_no_sleep (Command cfg) w
              (h ++ session ++ report)%list) as [Hsl Hat].
  fold recovery in Hw, Hd, Hl, Hsl, Hat.
  repeat split; try assumption.
  - unfold turn. rewrite !count_app, Hw. reflexivity.
  - unfold turn. rewrite !count_app, Hd. reflexivity.
  - unfold turn. rewrite !count_app, Hat. reflexivity.
  - unfold turn. rewrite !count_app, Hl. cbn.
    now destruct (GoStrings.whitespace_only (Command cfg)).
  - unfold turn. rewrite !count_app, Hsl. reflexivity.
  - intros cycles. unfold events. rewrite supervisor_S, Hc. reflexivity.
Qed.

Lemma connect_failure_cycle_witness :
  let cfg := mkConfig "misskey.io" "" 10 300 "./script.sh restart" "" in
  let url := "wss://misskey.io/streaming" in
  startMonitoringSession 3 url cfg bare_world []
  = (Done (Some (error_of (ConnectFailed (LibError "dial tcp: connection refused")))),
     logged "Connecting to Misskey Streaming API..." [] ++ [EDial url])%list
  /\ count is_WriteMessage (events (cycle 3 url cfg (cooldownDuration cfg)) bare_world [])
     = 0%nat
  /\ count is_CombinedOutput (events (cycle 3 url cfg (cooldownDuration cfg)) bare_world [])
     = 1%nat
  /\ count is_Sleep (events (cycle 3 url cfg (cooldownDuration cfg)) bare_world [])
     = 1%nat.
Proof.
  cbv zeta.
  destruct (connect_failure_cycle 3 "wss://misskey.io/streaming"
              (mkConfig "misskey.io" "" 10 300 "./script.sh restart" "")
              bare_world [] (LibError "dial tcp: connection refused") eq_refl)
    as (Hs & Hc & Hw & _ & _ & Hl & Hsl & _).
  unfold events. rewrite Hc. cbn [snd].
  split; [exact Hs|]. split; [exact Hw|]. split; [exact Hl | exact Hsl].
Defined.

(** C3 (as stated) fails: with a blank recovery command (no [command] key in
    the configuration) and a connect that fails, the turn of the supervisor
    completes, cooldown included, and no command has been run. *)
Lemma blank_command_counterexample :
  let cfg := mkConfig "misskey.io" "" 10 300 "" "" in
  let url := "wss://misskey.io/streaming" in
  let turn := events (cycle 3 url cfg (cooldownDuration cfg)) bare_world [] in
  websocket_Dial bare_world
    ([] ++ logged "Connecting to Misskey Streaming API..." [])%list url
  = Some (LibError "dial tcp: connection refused")
  /\ outcome (cycle 3 url cfg (cooldownDuration cfg)) bare_world [] = Done tt
  /\ count is_Sleep turn = 1%nat
  /\ count is_CombinedOutput turn = 0%nat
  /\ count is_CombinedOutput turn <> 1%nat.
Proof.
  cbv zeta. repeat split; try (vm_compute; reflexivity).
  vm_compute. discriminate.
Qed.

(** ** Start-up *)

(** C10: when the configuration file does not exist, [main] writes the
    template, logs that the file was not found and exits with status 1,
    whatever the write returned; it loads no configuration and opens no
    connection. *)
Theorem missing_config_exits (configPath : string) (cycles reads : nat)
    (w : World) (h : history) :
  os_IsNotExist (os_Stat w h configPath) = true ->
  main configPath cycles reads w h
  = (Exited 1,
     [EStat configPath;
      EWriteFile configPath DefaultConfigTemplate 420;
      ELog (Formatted "Configuration file not found. Created sample at: %s"
                      [VString configPath]);
      EExit 1])
  /\ count is_Dial (events (main configPath cycles reads) w h) = 0%nat.
Proof.
  intros Hstat.
  assert (Hm : main configPath cycles reads w h
               = (Exited 1,
                  [EStat configPath;
                   EWriteFile configPath DefaultConfigTemplate 420;
                   ELog (Formatted
                           "Configuration file not found. Created sample at: %s"
                           [VString configPath]);
                   EExit 1])).
  { unfold main. unfold bind at 1. unfold call at 1.
    unfold bind at 1. rewrite Hstat.
    unfold bind at 1. unfold call at 1.
    reflexivity. }
  split; [exact Hm|]. unfold events. now rewrite Hm.
Qed.

Lemma missing_config_exits_witness :
  os_WriteFile bare_world [EStat "config.yaml"] "config.yaml" DefaultConfigTemplate 420
  <> nil
  /\ outcome (main "config.yaml" 2 2) bare_world [] = Exited 1.
Proof.
  split; [discriminate|].
  unfold outcome.
  destruct (missing_config_exits "config.yaml" 2 2 bare_world [] eq_refl) as [Hm _].
  rewrite Hm. reflexivity.
Defined.

(** When the file exists, start-up goes on: with a valid configuration the
    supervisor is reached and the first connection attempt is made. *)
Example main_reaches_supervisor :
  count is_Dial (events (main "config.yaml" 1 2)
                        {| os_Stat := fun _ _ => nil;
                           os_WriteFile := fun _ _ _ _ => nil;
                           os_ReadFile := fun _ _ => ("target: ...", nil);
                           yaml_Unmarshal := fun _ _ =>
                             (mkConfig "misskey.io" "" 10 0 "./script.sh" "", nil);
                           sentry_Init := fun _ _ => nil;
                           websocket_Dial := fun _ _ => nil;
                           conn_WriteMessage := fun _ _ _ => nil;
                           conn_SetReadDeadline := fun _ _ => nil;
                           conn_ReadMessage := fun _ => Some i_o_timeout;
                           time_Now := fun _ => 0;
                           cmd_CombinedOutput := fun _ _ _ => ("", nil) |} [])
  = 1%nat.
Proof. vm_compute. reflexivity. Qed.

(** * Further properties of [main.go] *)

(** ** Kinds of events a function is confined to *)

Lemma only_ret {A} P (a : A) : only P (ret a).
Proof. intros w h; reflexivity. Qed.

Lemma only_emit P e : P e = true -> only P (emit e).
Proof. intros He w h; unfold events, emit; simpl. now rewrite He. Qed.

Lemma only_call {A} P e (answer : World -> history -> A) :
  P e = true -> only P (call e answer).
Proof. intros He w h; unfold events, call; simpl. now rewrite He. Qed.

Lemma only_silent {A} P (answer : World -> history -> A) :
  only P (fun w h => (Done (answer w h), [])).
Proof. intros w h; reflexivity. Qed.

Lemma only_still_running {A} P : only P (@still_running A).
Proof. intros w h; reflexivity. Qed.

Lemma only_bind {A B} P (m : M A) (f : A -> M B) :
  only P m -> (forall a, only P (f a)) -> only P (bind m f).
Proof.
  intros Hm Hf w h. specialize (Hm w h). unfold events, bind in *.
  destruct (m w h) as [[a | c |] t1]; simpl in *; try exact Hm.
  specialize (Hf a w (h ++ t1)%list). unfold events in Hf.
  destruct (f a w (h ++ t1)%list) as [r t2]; simpl in *.
  rewrite forallb_app. now rewrite Hm, Hf.
Qed.

Lemma only_weaken {A} (P Q : event -> bool) (m : M A) :
  (forall e, P e = true -> Q e = true) -> only P m -> only Q m.
Proof.
  intros HPQ Hm w h. specialize (Hm w h).
  rewrite forallb_forall in *. auto.
Qed.

Lemma only_count_zero (P q : event -> bool) (t : list event) :
  forallb P t = true ->
  (forall e, P e = true -> q e = false) ->
  count q t = 0%nat.
Proof.
  intros Ht Hq. unfold count.
  induction t as [|e t IH]; simpl in *; [reflexivity|].
  apply andb_true_iff in Ht as [He Ht].
  rewrite (Hq e He). now apply IH.
Qed.

(** Goals [only P m] for code written with [bind], [call] and [emit]. *)
Ltac confined :=
  repeat first
    [ apply only_ret
    | apply only_emit; reflexivity
    | apply only_call; reflexivity
    | apply only_silent
    | apply only_still_running
    | apply only_bind; [| intros ?]
    | match goal with
      | |- only _ (match ?x with _ => _ end) => destruct x
      | |- only _ (if ?x then _ else _) => destruct x
      | |- only _ (let _ := _ in _) => cbv zeta
      end ].

Lemma logPrintf_only P format v :
  P (ELog (Formatted format v)) = true ->
  P (ESentry hubScope (CaptureMessage (Formatted format v))) = true ->
  only P (logPrintf format v).
Proof.
  intros H1 H2 w h. unfold events; rewrite logPrintf_run; simpl.
  now rewrite H1, H2.
Qed.

Lemma readLoop_only reads d : only session_event (readLoop reads d).
Proof.
  induction reads as [|reads IH]; cbn [readLoop]; confined. exact IH.
Qed.

Lemma startMonitoringSession_only reads url cfg :
  only session_event (startMonitoringSession reads url cfg).
Proof.
  unfold startMonitoringSession, defer_Close.
  apply only_bind; [now apply logPrintf_only | intros _].
  confined. apply readLoop_only.
Qed.

Lemma executeCommandAndReport_only commandStr :
  only executor_event (executeCommandAndReport commandStr).
Proof.
  unfold executeCommandAndReport, log_Print; cbv zeta.
  destruct (GoStrings.Fields commandStr) as [|name args].
  - now apply logPrintf_only.
  - confined.
Qed.

Lemma cycle_only reads url cfg cd :
  only supervisor_event (cycle reads url cfg cd).
Proof.
  unfold cycle.
  apply only_bind.
  { apply only_weaken with (P := session_event);
      [| apply startMonitoringSession_only].
    intros e He. destruct e; try discriminate; reflexivity. }
  intros err.
  apply only_bind; [now apply logPrintf_only | intros _].
  apply only_bind; [apply only_emit; reflexivity | intros _].
  apply only_bind; [now apply logPrintf_only | intros _].
  apply only_bind.
  { apply only_weaken with (P := executor_event);
      [| apply executeCommandAndReport_only].
    intros e He. destruct e; try discriminate; reflexivity. }
  intros _.
  apply only_bind; [now apply logPrintf_only | intros _].
  apply only_bind; [apply only_emit; reflexivity | intros _].
  apply only_bind; [apply only_emit; reflexivity | intros _].
  now apply logPrintf_only.
Qed.

Lemma supervisor_only cycles reads url cfg cd :
  only supervisor_event (supervisor cycles reads url cfg cd).
Proof.
  induction cycles as [|cycles IH]; cbn [supervisor].
  - apply only_still_running.
  - apply only_bind; [apply cycle_only | intros _; exact IH].
Qed.

(** ** Target address and idle timeout *)

(** X1: [getTargetURL] returns either a non-empty address with a nil error,
    or the empty string with an error; the error is returned exactly when
    neither a URL nor a domain is configured. *)
Theorem target_address_or_error (cfg : Config) :
  match getTargetURL cfg with
  | (address, None) =>
      address <> "" /\ (Target_URL cfg <> "" \/ Target_Domain cfg <> "")
  | (address, Some _) =>
      address = "" /\ Target_URL cfg = "" /\ Target_Domain cfg = ""
  end.
Proof.
  unfold getTargetURL.
  destruct (String.eqb_spec (Target_URL cfg) "") as [Hu | Hu]; simpl.
  - destruct (String.eqb_spec (Target_Domain cfg) "") as [Hd | Hd]; simpl.
    + auto.
    + split; [discriminate | now right].
  - split; [exact Hu | now left].
Qed.

(** X2: a configured timeout between -9223372036 and 9223372036 seconds is
    used as it is, in nanoseconds: the idle timeout has the sign of the
    configured value, so it is zero or negative when that is. *)
Theorem timeout_as_configured (cfg : Config) :
  - GoTime.max_seconds <= Timeout cfg <= GoTime.max_seconds ->
  timeoutDuration cfg = Timeout cfg * GoTime.Second
  /\ Z.sgn (timeoutDuration cfg) = Z.sgn (Timeout cfg).
Proof.
  intros H. unfold timeoutDuration. rewrite (seconds_exact _ H).
  split; [reflexivity|]. unfold GoTime.Second.
  rewrite Z.sgn_mul. change (Z.sgn 1000000000) with 1. lia.
Qed.

Lemma timeout_as_configured_witness :
  timeoutDuration (mkConfig "misskey.io" "" (-5) 300 "./script.sh" "") = -5000000000
  /\ Z.sgn (timeoutDuration (mkConfig "misskey.io" "" 10 300 "./script.sh" "")) = 1.
Proof.
  split.
  - apply (timeout_as_configured (mkConfig "misskey.io" "" (-5) 300 "./script.sh" "")).
    vm_compute; split; discriminate.
  - apply (timeout_as_configured (mkConfig "misskey.io" "" 10 300 "./script.sh" "")).
    vm_compute; split; discriminate.
Defined.

(** ** [loadConfig] *)

(** X3: [loadConfig] reads the file once and returns either a configuration
    with a nil error, or no configuration with the error of the read or of
    the YAML decoding, unchanged; the decoding starts from the zero
    [Config] and is not attempted when the read fails. *)
Theorem loadConfig_result (path : string) (w : World) (h : history) :
  loadConfig path w h
  = (Done
       match os_ReadFile w h path with
       | (_, Some e) => (None, Some e)
       | (data, None) =>
           match yaml_Unmarshal w data zeroConfig with
           | (_, Some e) => (None, Some e)
           | (cfg, None) => (Some cfg, nil)
           end
       end,
     [EReadFile path])
  /\ match outcome (loadConfig path) w h with
     | Done (Some _, None) | Done (None, Some _) => True
     | _ => False
     end.
Proof.
  unfold outcome, loadConfig, bind, call, ret; simpl.
  destruct (os_ReadFile w h path) as [data [e|]]; simpl; [now split|].
  destruct (yaml_Unmarshal w data zeroConfig) as [cfg [e|]]; simpl; now split.
Qed.

(** ** More on the session *)

Lemma readLoop_only_deadlines_and_reads reads d :
  only (fun e => is_SetReadDeadline e || is_ReadMessage e) (readLoop reads d).
Proof.
  induction reads as [|reads IH]; cbn [readLoop]; confined. exact IH.
Qed.

Lemma count_cons p (e : event) (t : list event) :
  count p (e :: t) = ((if p e then 1 else 0) + count p t)%nat.
Proof. unfold count; simpl. now destruct (p e). Qed.

Lemma split_after_prefix (q : event -> bool) pre l p x rest :
  count q pre = 0%nat -> q x = true ->
  (pre ++ l = p ++ x :: rest)%list ->
  exists p2, p = (pre ++ p2)%list /\ l = (p2 ++ x :: rest)%list.
Proof.
  revert p; induction pre as [|a pre IH]; intros p Hq Hx E; simpl in *.
  - now exists p.
  - rewrite count_cons in Hq.
    destruct (q a) eqn:Ha; [discriminate|]. simpl in Hq.
    destruct p as [|b p]; simpl in E.
    + injection E as -> _. congruence.
    + injection E as <- E.
      destruct (IH p Hq Hx E) as (p2 & -> & ->). now exists p2.
Qed.

Lemma no_occurrence (q : event -> bool) t p x rest :
  count q t = 0%nat -> q x = true -> t <> (p ++ x :: rest)%list.
Proof.
  intros Hq Hx ->. rewrite count_app, count_cons, Hx in Hq. lia.
Qed.

Lemma split_before_last (l p rest : list event) (c x : event) :
  x <> c ->
  (l ++ [c] = p ++ x :: rest)%list ->
  exists rest', l = (p ++ x :: rest')%list.
Proof.
  intros Hx E.
  destruct (@exists_last _ (x :: rest) ltac:(discriminate)) as (r & c' & Er).
  rewrite Er, app_assoc in E. apply app_inj_tail in E as [E <-].
  destruct r as [|y r]; simpl in Er.
  - injection Er as ->. congruence.
  - injection Er as <- _. exists r. exact E.
Qed.

Lemma readLoop_read_after_deadline reads d w h p rest :
  events (readLoop reads d) w h = (p ++ EReadMessage :: rest)%list ->
  exists p',
    p = (p' ++ [ESetReadDeadline (GoTime.Add (time_Now w (h ++ p')%list) d)])%list.
Proof.
  unfold events.
  revert h p; induction reads as [|reads IH]; intros h p E.
  - destruct p; discriminate.
  - rewrite readLoop_S in E; cbv zeta in E.
    destruct (conn_SetReadDeadline w h _) as [e|]; simpl in E.
    { now apply (no_occurrence is_ReadMessage) in E. }
    destruct (conn_ReadMessage w _) as [e|]; simpl in E.
    { destruct p as [|x [|y p]]; try discriminate.
      - injection E as <- _. exists []. now rewrite app_nil_r.
      - injection E as _ _ E. now destruct p. }
    specialize (IH (h ++ [ESetReadDeadline (GoTime.Add (time_Now w h) d);
                          EReadMessage])%list).
    destruct (readLoop reads d w _) as [r t]; simpl in *.
    destruct p as [|x [|y p]]; try discriminate.
    + injection E as <- _. exists []. now rewrite app_nil_r.
    + injection E as <- <- E.
      destruct (IH p E) as (p' & ->).
      exists (ESetReadDeadline (GoTime.Add (time_Now w h) d) :: EReadMessage :: p').
      simpl. now rewrite <- app_assoc.
Qed.

(** X4: every read of a session comes right after a read deadline, and that
    deadline is the instant at which it was set plus the configured
    timeout: deadlines are armed anew for each read and do not add up. *)
Theorem every_read_has_a_fresh_deadline (reads : nat) (url : string) (cfg : Config)
    (w : World) (h : history) (p rest : list event) :
  events (startMonitoringSession reads url cfg) w h
  = (p ++ EReadMessage :: rest)%list ->
  exists p',
    p = (p' ++ [ESetReadDeadline
                  (GoTime.Add (time_Now w (h ++ p')%list) (timeoutDuration cfg))])%list.
Proof.
  unfold events. rewrite startMonitoringSession_run; cbv zeta.
  destruct (websocket_Dial w _ url) as [e|].
  { intros E; cbn [snd] in E.
    now apply (no_occurrence is_ReadMessage) in E. }
  destruct (conn_WriteMessage w _ _ _) as [e|].
  { intros E; cbn [snd] in E.
    now apply (no_occurrence is_ReadMessage) in E. }
  set (pre := (logged "Connecting to Misskey Streaming API..." []
               ++ [EDial url; EWriteMessage TextMessage SubscribePayload]
               ++ logged "Monitoring started (Listening for messages)..." [])%list).
  assert (L : forall t,
             events (readLoop reads (timeoutDuration cfg)) w (h ++ pre)%list = t ->
             forall l, (l = t \/ l = (t ++ [EClose])%list) ->
             (pre ++ l = p ++ EReadMessage :: rest)%list ->
             exists p',
               p = (p' ++ [ESetReadDeadline
                             (GoTime.Add (time_Now w (h ++ p')%list)
                                         (timeoutDuration cfg))])%list).
  { intros t Et l Hl E.
    destruct (split_after_prefix is_ReadMessage pre l p EReadMessage rest
                eq_refl eq_refl E) as (p2 & -> & El).
    assert (exists rest', t = (p2 ++ EReadMessage :: rest')%list) as [rest' Et'].
    { destruct Hl as [-> | ->]; [now exists rest|].
      apply (split_before_last t p2 rest EClose EReadMessage); [discriminate|].
      exact El. }
    rewrite Et' in Et.
    destruct (readLoop_read_after_deadline _ _ _ _ _ _ Et) as (p' & ->).
    exists (pre ++ p')%list. now rewrite !app_assoc. }
  specialize (L _ eq_refl). unfold events in L.
  change (h ++ logged "Connecting to Misskey Streaming API..." []
            ++ [EDial url; EWriteMessage TextMessage SubscribePayload]
            ++ logged "Monitoring started (Listening for messages)..." [])%list
    with (h ++ pre)%list.
  destruct (readLoop reads (timeoutDuration cfg) w (h ++ pre)%list)
    as [[e | c |] t]; cbn [snd] in *; intros E.
  - apply (L (t ++ [EClose])%list); [now right|].
    unfold pre. repeat (rewrite <- app_assoc; cbn [app]).
    repeat (rewrite <- app_assoc in E; cbn [app] in E). exact E.
  - apply (L t); [now left|].
    unfold pre. repeat (rewrite <- app_assoc; cbn [app]).
    repeat (rewrite <- app_assoc in E; cbn [app] in E). exact E.
  - apply (L t); [now left|].
    unfold pre. repeat (rewrite <- app_assoc; cbn [app]).
    repeat (rewrite <- app_assoc in E; cbn [app] in E). exact E.
Qed.

Lemma every_read_has_a_fresh_deadline_witness :
  let cfg := mkConfig "misskey.io" "" 10 300 "./script.sh" "" in
  let url := "wss://misskey.io/streaming" in
  exists p',
    (logged "Connecting to Misskey Streaming API..." []
     ++ [EDial url; EWriteMessage TextMessage SubscribePayload]
     ++ logged "Monitoring started (Listening for messages)..." []
     ++ [ESetReadDeadline 10000000000; EReadMessage; ESetReadDeadline 10000000000])%list
    = (p' ++ [ESetReadDeadline
                (GoTime.Add (time_Now (silent_after 1) ([] ++ p')%list)
                            (timeoutDuration cfg))])%list.
Proof.
  cbv zeta.
  apply (every_read_has_a_fresh_deadline 3 "wss://misskey.io/streaming"
           (mkConfig "misskey.io" "" 10 300 "./script.sh" "")
           (silent_after 1) [] _ [EClose]).
  vm_compute. reflexivity.
Defined.

(** X5: a session that has connected closes its connection exactly once, as
    the last thing it does before it returns, whichever error it returns; a
    session whose connect failed has nothing to close, and a session that is
    still listening has not closed. *)
Theorem session_closes_its_connection (reads : nat) (url : string) (cfg : Config)
    (w : World) (h : history) :
  let t := events (startMonitoringSession reads url cfg) w h in
  match outcome (startMonitoringSession reads url cfg) w h,
        websocket_Dial
          w (h ++ logged "Connecting to Misskey Streaming API..." [])%list url
  with
  | Done _, None => exists t', t = (t' ++ [EClose])%list /\ count is_Close t' = 0%nat
  | Done _, Some _ => count is_Close t = 0%nat
  | Running, None => count is_Close t = 0%nat
  | Running, Some _ => False
  | Exited _, _ => False
  end.
Proof.
  cbv zeta. unfold outcome, events.
  rewrite startMonitoringSession_run; cbv zeta.
  destruct (websocket_Dial w _ url) as [e|]; [reflexivity|].
  destruct (conn_WriteMessage w _ _ _) as [e|].
  { cbn [fst snd].
    exists (logged "Connecting to Misskey Streaming API..." []
            ++ [EDial url; EWriteMessage TextMessage SubscribePayload])%list.
    split; reflexivity. }
  match goal with
  | |- context [readLoop reads ?d w ?h'] =>
      pose proof (readLoop_only_deadlines_and_reads reads d w h') as Q;
      pose proof (readLoop_outcome reads d w h') as L
  end.
  unfold events, outcome in Q, L.
  destruct (readLoop reads _ w _) as [[e | c |] t]; cbn [fst snd] in *.
  - exists (logged "Connecting to Misskey Streaming API..." []
            ++ [EDial url; EWriteMessage TextMessage SubscribePayload]
            ++ logged "Monitoring started (Listening for messages)..." []
            ++ t)%list.
    split; [now repeat (rewrite <- app_assoc; cbn [app])|].
    rewrite !count_app.
    rewrite (only_count_zero _ is_Close t Q); [reflexivity|].
    now intros [].
  - exact L.
  - rewrite !count_app.
    rewrite (only_count_zero _ is_Close t Q); [reflexivity|].
    now intros [].
Qed.

(** X6: when the connection is made but the subscribe message cannot be
    written, the session returns the subscribe error at once: it sets no
    read deadline and reads nothing, and it closes the connection. *)
Theorem subscribe_failure_ends_session (reads : nat) (url : string) (cfg : Config)
    (w : World) (h : history) (cause : err) :
  let connecting := logged "Connecting to Misskey Streaming API..." [] in
  websocket_Dial w (h ++ connecting)%list url = nil ->
  conn_WriteMessage w (h ++ connecting ++ [EDial url])%list TextMessage SubscribePayload
  = Some cause ->
  startMonitoringSession reads url cfg w h
  = (Done (Some (error_of (SubscribeFailed cause))),
     connecting ++ [EDial url; EWriteMessage TextMessage SubscribePayload; EClose])%list.
Proof.
  intros connecting Hd Hw.
  rewrite startMonitoringSession_run; cbv zeta.
  fold connecting. now rewrite Hd, Hw.
Qed.

Lemma subscribe_failure_ends_session_witness :
  outcome (startMonitoringSession 5 "wss://misskey.io/streaming"
             (mkConfig "misskey.io" "" 10 300 "./script.sh" "")) broken_pipe_world []
  = Done (Some (error_of (SubscribeFailed (LibError "write: broken pipe")))).
Proof.
  unfold outcome.
  rewrite (subscribe_failure_ends_session 5 "wss://misskey.io/streaming"
             (mkConfig "misskey.io" "" 10 300 "./script.sh" "")
             broken_pipe_world [] (LibError "write: broken pipe")
             eq_refl eq_refl).
  reflexivity.
Defined.

Lemma session_counts reads url cfg w h :
  let t := events (startMonitoringSession reads url cfg) w h in
  filter is_Dial t = [EDial url]
  /\ count is_recovery_attempt t = 0%nat
  /\ count is_CombinedOutput t = 0%nat
  /\ count is_Sleep t = 0%nat
  /\ count is_Exit t = 0%nat
  /\ count is_WriteFile t = 0%nat
  /\ count is_SentryInit t = 0%nat.
Proof.
  cbv zeta.
  pose proof (startMonitoringSession_only reads url cfg w h) as Q.
  assert (Z : forall q, (forall e, session_event e = true -> q e = false) ->
                        count q (events (startMonitoringSession reads url cfg) w h)
                        = 0%nat)
    by (intros q Hq; now apply (only_count_zero session_event)).
  split; [|split].
  - unfold events. rewrite startMonitoringSession_run; cbv zeta.
    destruct (websocket_Dial w _ url) as [e|]; [reflexivity|].
    destruct (conn_WriteMessage w _ _ _) as [e|]; [reflexivity|].
    match goal with
    | |- context [readLoop reads ?d w ?h'] =>
        destruct (readLoop_quiet reads d w h') as (_ & D & _)
    end.
    unfold events, count in D. apply length_zero_iff_nil in D.
    destruct (readLoop reads _ w _) as [[e | c |] t]; cbn [snd] in *;
      cbn [app filter is_Dial logged];
      repeat rewrite filter_app; rewrite D; reflexivity.
  - unfold events. rewrite startMonitoringSession_run; cbv zeta.
    destruct (websocket_Dial w _ url) as [e|]; [reflexivity|].
    destruct (conn_WriteMessage w _ _ _) as [e|]; [reflexivity|].
    match goal with
    | |- context [readLoop reads ?d w ?h'] =>
        pose proof (readLoop_only_deadlines_and_reads reads d w h') as R
    end.
    unfold events in R.
    assert (R0 : forall t, forallb (fun e => is_SetReadDeadline e || is_ReadMessage e) t
                           = true -> count is_recovery_attempt t = 0%nat).
    { intros t Ht. apply (only_count_zero _ _ _ Ht). now intros []. }
    destruct (readLoop reads _ w _) as [[e | c |] t]; cbn [snd] in *;
      rewrite !count_app, (R0 t R); reflexivity.
  - repeat split; apply Z; now intros [].
Qed.

(** X7: a session makes exactly one connection attempt, to the address it
    was given, and does nothing outside its connection, the log and Sentry:
    it launches no command, does not sleep, does not end the process and
    writes no file. *)
Theorem session_is_confined (reads : nat) (url : string) (cfg : Config)
    (w : World) (h : history) :
  let t := events (startMonitoringSession reads url cfg) w h in
  filter is_Dial t = [EDial url]
  /\ forallb session_event t = true
  /\ count is_CombinedOutput t = 0%nat
  /\ count is_Sleep t = 0%nat
  /\ count is_Exit t = 0%nat
  /\ count is_WriteFile t = 0%nat.
Proof.
  cbv zeta.
  destruct (session_counts reads url cfg w h) as (D & _ & C & S & X & F & _).
  repeat split; try assumption. apply startMonitoringSession_only.
Qed.

(** ** More on the recovery executor *)

(** X8: the recovery executor runs the first token of the command as the
    program, with the remaining tokens as its arguments, once; it always
    returns, whether the command succeeds, fails or is blank, and it does
    nothing but run the command, log and report. *)
Theorem executor_runs_the_command (commandStr : string) (w : World) (h : history) :
  let t := events (executeCommandAndReport commandStr) w h in
  outcome (executeCommandAndReport commandStr) w h = Done tt
  /\ filter is_CombinedOutput t
     = match GoStrings.Fields commandStr with
       | [] => []
       | name :: args => [ECombinedOutput name args]
       end
  /\ forallb executor_event t = true.
Proof.
  cbv zeta. split; [apply executeCommandAndReport_returns|].
  split; [|apply executeCommandAndReport_only].
  executor_cases; reflexivity.
Qed.

(** X9: each call of the recovery executor makes one report to Sentry: a
    failed command is reported as an exception at fatal level, a successful
    one as a message at info level, both with the combined output of the
    command attached; a blank command is reported as a plain message. *)
Theorem executor_reports_once (commandStr : string) (w : World) (h : history) :
  reports (events (executeCommandAndReport commandStr) w h)
  = match GoStrings.Fields commandStr with
    | [] =>
        [(hubScope,
          CaptureMessage (Formatted "Error: Recovery command string is empty" []))]
    | name :: args =>
        match cmd_CombinedOutput w h name args with
        | (output, Some e) =>
            [(mkScope (Some LevelFatal) [("command_output", output)],
              CaptureException (Some (ErrorfW "command failed: %w" e)))]
        | (output, None) =>
            [(mkScope (Some LevelInfo) [("command_output", output)],
              CaptureMessage
                (Formatted "command executed successfully: %s" [VString name]))]
        end
    end.
Proof.
  unfold events, executeCommandAndReport.
  destruct (GoStrings.Fields commandStr) as [|name args]; [reflexivity|].
  unfold bind, call; simpl.
  destruct (cmd_CombinedOutput w h name args) as [out [e|]]; reflexivity.
Qed.

(** ** The supervisor loop *)

Lemma session_not_exited reads url cfg w h c :
  outcome (startMonitoringSession reads url cfg) w h <> Exited c.
Proof.
  unfold outcome. rewrite startMonitoringSession_run; cbv zeta.
  destruct (websocket_Dial w _ url) as [e|]; [discriminate|].
  destruct (conn_WriteMessage w _ _ _) as [e|]; [discriminate|].
  match goal with
  | |- context [readLoop reads ?d w ?h'] =>
      pose proof (readLoop_outcome reads d w h') as L
  end.
  unfold outcome in L.
  destruct (readLoop reads _ w _) as [[e | c' |] t]; cbn [fst] in *;
    [discriminate | contradiction | discriminate].
Qed.

Lemma filter_nil_of_count (q : event -> bool) (t : list event) :
  count q t = 0%nat -> filter q t = [].
Proof. unfold count. apply length_zero_iff_nil. Qed.

Lemma cycle_facts reads url cfg cd w h :
  let t := events (cycle reads url cfg cd) w h in
  match outcome (cycle reads url cfg cd) w h with
  | Done _ =>
      filter is_Dial t = [EDial url]
      /\ count is_recovery_attempt t = 1%nat
      /\ filter is_Sleep t = [ESleep cd]
      /\ count is_CombinedOutput t
         = (if GoStrings.whitespace_only (Command cfg) then 0%nat else 1%nat)
      /\ exists t',
           t = (t' ++ [ESentryFlush (5 * GoTime.Second); ESleep cd]
                   ++ logged ">>> Cooldown finished. Retrying connection..." [])%list
           /\ count is_Sleep t' = 0%nat
  | Running =>
      filter is_Dial t = [EDial url]
      /\ count is_recovery_attempt t = 0%nat
      /\ count is_Sleep t = 0%nat
      /\ count is_CombinedOutput t = 0%nat
  | Exited _ => False
  end.
Proof.
  cbv zeta. unfold outcome, events. rewrite cycle_run.
  destruct (session_counts reads url cfg w h) as (D & A & C & S & _).
  pose proof (session_not_exited reads url cfg w h) as X.
  unfold outcome, events in *.
  destruct (startMonitoringSession reads url cfg w h) as [[err | c |] session];
    cbn [fst snd] in *; cbv zeta.
  - match goal with
    | |- context [executeCommandAndReport ?c w ?hh] =>
        destruct (executeCommandAndReport_no_network c w hh) as [_ Hd];
        destruct (executeCommandAndReport_no_sleep c w hh) as [Hs Ha];
        pose proof (executeCommandAndReport_launches c w hh) as Hl;
        unfold events in Hd, Hs, Ha, Hl;
        set (recovery := snd (executeCommandAndReport c w hh)) in *
    end.
    repeat split.
    + rewrite !filter_app, D, (filter_nil_of_count _ _ Hd). reflexivity.
    + rewrite !count_app, A, Ha. reflexivity.
    + rewrite !filter_app, (filter_nil_of_count _ _ S),
        (filter_nil_of_count _ _ Hs). reflexivity.
    + rewrite !count_app, C, Hl. cbn.
      now destruct (GoStrings.whitespace_only (Command cfg)).
    + eexists (session
               ++ (logged "Monitor session ended with error: %v" [VError err]
                   ++ [ESentry (mkScope (Some LevelError) []) (CaptureException err)]
                   ++ logged "Attempting to execute command..." [])
               ++ recovery
               ++ logged ">>> Waiting %s before reconnecting..." [VDuration cd])%list.
      split.
      * repeat (rewrite <- app_assoc; cbn [app]). reflexivity.
      * rewrite !count_app, S, Hs. reflexivity.
  - now apply (X c).
  - repeat split; assumption.
Qed.

(** X10: a turn of the supervisor loop never ends the process.  Once its
    session has returned, the turn has made one connection attempt, handed
    over to the recovery executor once, and slept once, for the cooldown,
    after flushing Sentry and as the last step before the next turn, whatever
    the session's error and whatever the recovery command did.  While the
    session has not returned, nothing was launched and nothing slept. *)
Theorem turn_of_the_supervisor (reads : nat) (url : string) (cfg : Config)
    (cd : GoTime.Duration) (w : World) (h : history) :
  let t := events (cycle reads url cfg cd) w h in
  count is_Exit t = 0%nat /\
  match outcome (cycle reads url cfg cd) w h with
  | Done _ =>
      filter is_Dial t = [EDial url]
      /\ count is_recovery_attempt t = 1%nat
      /\ filter is_Sleep t = [ESleep cd]
      /\ count is_CombinedOutput t
         = (if GoStrings.whitespace_only (Command cfg) then 0%nat else 1%nat)
      /\ exists t',
           t = (t' ++ [ESentryFlush (5 * GoTime.Second); ESleep cd]
                   ++ logged ">>> Cooldown finished. Retrying connection..." [])%list
           /\ count is_Sleep t' = 0%nat
  | Running =>
      filter is_Dial t = [EDial url]
      /\ count is_recovery_attempt t = 0%nat
      /\ count is_Sleep t = 0%nat
      /\ count is_CombinedOutput t = 0%nat
  | Exited _ => False
  end.
Proof.
  cbv zeta. split.
  - apply (only_count_zero supervisor_event); [apply cycle_only|].
    now intros [].
  - exact (cycle_facts reads url cfg cd w h).
Qed.

Lemma count_of_filter (q : event -> bool) (t : list event) :
  count q t = List.length (filter q t).
Proof. reflexivity. Qed.

Lemma supervisor_facts cycles reads url cfg cd w h :
  let t := events (supervisor cycles reads url cfg cd) w h in
  outcome (supervisor cycles reads url cfg cd) w h = Running
  /\ (count is_Sleep t <= count is_Dial t <= count is_Sleep t + 1)%nat
  /\ (count is_Dial t <= cycles)%nat
  /\ count is_recovery_attempt t = count is_Sleep t
  /\ (count is_CombinedOutput t <= count is_Sleep t)%nat
  /\ filter is_Dial t = repeat (EDial url) (count is_Dial t)
  /\ filter is_Sleep t = repeat (ESleep cd) (count is_Sleep t).
Proof.
  cbv zeta. unfold outcome, events.
  revert h; induction cycles as [|cycles IH]; intros h.
  - cbn. repeat split; lia.
  - rewrite supervisor_S.
    pose proof (cycle_facts reads url cfg cd w h) as F.
    cbv zeta in F. unfold outcome, events in F.
    destruct (cycle reads url cfg cd w h) as [[[] | c |] tc]; cbn [fst snd] in *.
    + destruct F as (D & A & S & C & _).
      specialize (IH (h ++ tc)%list).
      destruct (supervisor cycles reads url cfg cd w (h ++ tc)%list) as [r ts].
      cbn [fst snd] in *.
      destruct IH as (-> & I1 & I2 & I3 & I4 & I5 & I6).
      assert (Dc : count is_Dial tc = 1%nat) by now rewrite count_of_filter, D.
      assert (Sc : count is_Sleep tc = 1%nat) by now rewrite count_of_filter, S.
      assert (Cc : (count is_CombinedOutput tc <= 1)%nat)
        by (rewrite C; destruct (GoStrings.whitespace_only (Command cfg)); lia).
      rewrite !count_app, !filter_app, Dc, Sc, A, D, S, I5, I6.
      repeat split; try lia; reflexivity.
    + contradiction.
    + destruct F as (D & A & S & C).
      assert (Dc : count is_Dial tc = 1%nat) by now rewrite count_of_filter, D.
      rewrite Dc, S, A, C, D, (filter_nil_of_count _ _ S).
      repeat split; lia.
Qed.

(** X11: the supervisor loop never returns and never ends the process.
    However long it runs, every connection attempt goes to the same address
    and every sleep lasts the same cooldown; two connection attempts are
    always separated by a sleep, and each sleep follows a hand-over to the
    recovery executor: attempts, hand-overs and sleeps go one for one. *)
Theorem supervisor_runs_forever (cycles reads : nat) (url : string) (cfg : Config)
    (cd : GoTime.Duration) (w : World) (h : history) :
  let t := events (supervisor cycles reads url cfg cd) w h in
  outcome (supervisor cycles reads url cfg cd) w h = Running
  /\ (count is_Sleep t <= count is_Dial t <= count is_Sleep t + 1)%nat
  /\ (count is_Dial t <= cycles)%nat
  /\ count is_recovery_attempt t = count is_Sleep t
  /\ (count is_CombinedOutput t <= count is_Sleep t)%nat
  /\ filter is_Dial t = repeat (EDial url) (count is_Dial t)
  /\ filter is_Sleep t = repeat (ESleep cd) (count is_Sleep t)
  /\ count is_Exit t = 0%nat.
Proof.
  cbv zeta.
  destruct (supervisor_facts cycles reads url cfg cd w h)
    as (R & I1 & I2 & I3 & I4 & I5 & I6).
  repeat split; try assumption; try apply I1.
  apply (only_count_zero supervisor_event); [apply supervisor_only|].
  now intros [].
Qed.

(** ** More on start-up *)

Lemma main_run configPath cycles reads w h :
  main configPath cycles reads w h
  = if os_IsNotExist (os_Stat w h configPath) then
      (Exited 1,
       [EStat configPath;
        EWriteFile configPath DefaultConfigTemplate 420;
        ELog (Formatted "Configuration file not found. Created sample at: %s"
                        [VString configPath]);
        EExit 1])
    else
      match os_ReadFile w (h ++ [EStat configPath])%list configPath with
      | (_, Some e) => (Exited 1, load_failure configPath e)
      | (data, None) =>
          match yaml_Unmarshal w data zeroConfig with
          | (_, Some e) => (Exited 1, load_failure configPath e)
          | (cfg, None) =>
              let loaded := [EStat configPath; EReadFile configPath] in
              let init := sentry_start w (h ++ loaded)%list cfg in
              match getTargetURL cfg with
              | (_, Some e) =>
                  (Exited 1,
                   loaded ++ init
                   ++ fatal "Configuration Error: %v" [VError (Some e)])%list
              | (targetURL, None) =>
                  let pre :=
                    (loaded ++ init
                     ++ logged
                          "Configuration Loaded. Target: %s, Timeout: %ds, Cooldown: %s"
                          [VString targetURL; VInt (Timeout cfg);
                           VDuration (cooldownDuration cfg)])%list in
                  (outcome (supervisor cycles reads targetURL cfg (cooldownDuration cfg))
                           w (h ++ pre)%list,
                   pre ++ events (supervisor cycles reads targetURL cfg
                                             (cooldownDuration cfg))
                                 w (h ++ pre)%list)%list
              end
          end
      end.
Proof.
  unfold main, loadConfig, log_Fatalf, logFatalf, logPrintf, log_Print, panic.
  unfold sentry_start, fatal, load_failure, logged, outcome, events.
  cbv [bind call ret emit os_Exit nil].
  destruct (os_IsNotExist (os_Stat w h configPath)); [reflexivity|].
  cbn [app]. rewrite !app_nil_r.
  destruct (os_ReadFile w (h ++ [EStat configPath])%list configPath)
    as [data [e|]]; [reflexivity|].
  destruct (yaml_Unmarshal w data zeroConfig) as [cfg [e|]]; [reflexivity|].
  cbv zeta. repeat (rewrite <- app_assoc; cbn [app]).
  destruct (getTargetURL cfg) as [targetURL [e|]];
    destruct (String.eqb (Sentry_DSN cfg) ""); cbn [negb app];
    repeat (rewrite <- app_assoc; cbn [app]); rewrite ?app_nil_r;
    try reflexivity.
  - destruct (sentry_Init w _ (Sentry_DSN cfg)) as [e'|]; reflexivity.
  - destruct (supervisor cycles reads targetURL cfg (cooldownDuration cfg) w _)
      as [r t]; reflexivity.
  - destruct (sentry_Init w _ (Sentry_DSN cfg)) as [e'|]; cbn [app];
      repeat (rewrite <- app_assoc; cbn [app]);
      destruct (supervisor cycles reads targetURL cfg (cooldownDuration cfg) w _)
        as [r t]; reflexivity.
Qed.

Lemma sentry_start_counts w h cfg :
  count is_Dial (sentry_start w h cfg) = 0%nat
  /\ count is_Exit (sentry_start w h cfg) = 0%nat
  /\ count is_WriteFile (sentry_start w h cfg) = 0%nat
  /\ count is_Sleep (sentry_start w h cfg) = 0%nat
  /\ count is_SentryInit (sentry_start w h cfg)
     = (if String.eqb (Sentry_DSN cfg) "" then 0%nat else 1%nat).
Proof.
  unfold sentry_start.
  destruct (String.eqb (Sentry_DSN cfg) ""); [repeat split|].
  destruct (sentry_Init w h (Sentry_DSN cfg)); repeat split.
Qed.

Lemma supervisor_counts cycles reads url cfg cd w h :
  count is_Exit (events (supervisor cycles reads url cfg cd) w h) = 0%nat
  /\ count is_WriteFile (events (supervisor cycles reads url cfg cd) w h) = 0%nat
  /\ count is_SentryInit (events (supervisor cycles reads url cfg cd) w h) = 0%nat.
Proof.
  repeat split;
    (apply (only_count_zero supervisor_event); [apply supervisor_only|]);
    now intros [].
Qed.

(** Once the command line is parsed, [main] does not return: it either ends
    the process with status 1 during start-up, the exit being its last
    event, or it is in the supervisor loop, without having called
    [os.Exit]. *)
Lemma main_exit_facts (configPath : string) (cycles reads : nat)
    (w : World) (h : history) :
  let t := events (main configPath cycles reads) w h in
  match outcome (main configPath cycles reads) w h with
  | Done _ => False
  | Exited code =>
      code = 1 /\ exists t', t = (t' ++ [EExit 1])%list /\ count is_Exit t' = 0%nat
  | Running => count is_Exit t = 0%nat
  end.
Proof.
  cbv zeta. unfold outcome at 1, events. rewrite main_run.
  destruct (os_IsNotExist (os_Stat w h configPath)).
  { cbn [fst snd]. split; [reflexivity|].
    eexists [_; _; _]. split; reflexivity. }
  destruct (os_ReadFile w _ configPath) as [data [e|]].
  { cbn [fst snd]. split; [reflexivity|].
    eexists [_; _; _]. split; reflexivity. }
  destruct (yaml_Unmarshal w data zeroConfig) as [cfg [e|]].
  { cbn [fst snd]. split; [reflexivity|].
    eexists [_; _; _]. split; reflexivity. }
  cbv zeta.
  match goal with
  | |- context [sentry_start w ?hh cfg] =>
      destruct (sentry_start_counts w hh cfg) as (_ & X & _);
      set (init := sentry_start w hh cfg) in *
  end.
  destruct (getTargetURL cfg) as [targetURL [e|]]; cbn [fst snd].
  - split; [reflexivity|].
    exists ([EStat configPath; EReadFile configPath] ++ init
            ++ [ELog (Prefixed "FATAL: "
                        (Formatted "Configuration Error: %v" [VError (Some e)]));
                ESentry hubScope
                  (CaptureMessage
                     (Prefixed "FATAL: "
                        (Formatted "Configuration Error: %v" [VError (Some e)])));
                ESentryFlush (5 * GoTime.Second)])%list.
    split.
    + unfold fatal. repeat (rewrite <- app_assoc; cbn [app]). reflexivity.
    + rewrite !count_app, X. reflexivity.
  - match goal with
    | |- context [supervisor cycles reads targetURL cfg ?cd] =>
        match goal with
        | |- context [outcome (supervisor cycles reads targetURL cfg cd) w ?hh] =>
            destruct (supervisor_facts cycles reads targetURL cfg cd w hh) as [R _];
            destruct (supervisor_counts cycles reads targetURL cfg cd w hh)
              as (SX & _)
        end
    end.
    cbv zeta in R. rewrite R.
    rewrite !count_app, X, SX. reflexivity.
Qed.

(** X13: [main] writes a file only when the configuration file does not
    exist, and then it writes the template, once, to the configuration
    path, with mode 0644: a configuration file that exists is never
    overwritten. *)
Theorem template_written_only_when_missing (configPath : string)
    (cycles reads : nat) (w : World) (h : history) :
  filter is_WriteFile (events (main configPath cycles reads) w h)
  = if os_IsNotExist (os_Stat w h configPath)
    then [EWriteFile configPath DefaultConfigTemplate 420]
    else [].
Proof.
  unfold events. rewrite main_run.
  destruct (os_IsNotExist (os_Stat w h configPath)); [reflexivity|].
  destruct (os_ReadFile w _ configPath) as [data [e|]]; [reflexivity|].
  destruct (yaml_Unmarshal w data zeroConfig) as [cfg [e|]]; [reflexivity|].
  cbv zeta.
  match goal with
  | |- context [sentry_start w ?hh cfg] =>
      destruct (sentry_start_counts w hh cfg) as (_ & _ & F & _);
      set (init := sentry_start w hh cfg) in *
  end.
  apply filter_nil_of_count.
  destruct (getTargetURL cfg) as [targetURL [e|]]; cbn [snd].
  - rewrite !count_app, F. reflexivity.
  - match goal with
    | |- context [events (supervisor cycles reads targetURL cfg ?cd) w ?hh] =>
        destruct (supervisor_counts cycles reads targetURL cfg cd w hh)
          as (_ & SF & _)
    end.
    rewrite !count_app, F, SF. reflexivity.
Qed.

Lemma loadConfig_failed path w h e :
  outcome (loadConfig path) w h = Done (None, Some e) ->
  match os_ReadFile w h path with
  | (_, Some e') => e' = e
  | (data, None) =>
      match yaml_Unmarshal w data zeroConfig with
      | (_, Some e') => e' = e
      | (_, None) => False
      end
  end.
Proof.
  unfold outcome, loadConfig, bind, call, ret; simpl.
  destruct (os_ReadFile w h path) as [data [e'|]]; simpl; [congruence|].
  destruct (yaml_Unmarshal w data zeroConfig) as [cfg [e'|]]; simpl; congruence.
Qed.

Lemma loadConfig_loaded path w h cfg :
  outcome (loadConfig path) w h = Done (Some cfg, nil) ->
  exists data,
    os_ReadFile w h path = (data, nil)
    /\ yaml_Unmarshal w data zeroConfig = (cfg, nil).
Proof.
  unfold outcome, loadConfig, bind, call, ret; simpl.
  destruct (os_ReadFile w h path) as [data [e'|]]; simpl; [discriminate|].
  destruct (yaml_Unmarshal w data zeroConfig) as [cfg' [e'|]] eqn:Hy; simpl;
    [discriminate|].
  intros E. injection E as ->. now exists data.
Qed.

(** X14: when the configuration file exists and cannot be loaded (the read
    or the YAML decoding fails), [main] logs the error and exits with
    status 1 at once: Sentry is not initialised, nothing is reported to it,
    and no connection is attempted. *)
Theorem load_failure_exits (configPath : string) (cycles reads : nat)
    (w : World) (h : history) (e : err) :
  os_IsNotExist (os_Stat w h configPath) = false ->
  outcome (loadConfig configPath) w (h ++ [EStat configPath])%list
  = Done (None, Some e) ->
  main configPath cycles reads w h
  = (Exited 1,
     [EStat configPath; EReadFile configPath;
      ELog (Formatted "Failed to load configuration: %v" [VError (Some e)]);
      EExit 1]).
Proof.
  intros Hstat Hload. apply loadConfig_failed in Hload.
  rewrite main_run, Hstat.
  destruct (os_ReadFile w _ configPath) as [data [e'|]]; [now subst|].
  destruct (yaml_Unmarshal w data zeroConfig) as [cfg [e'|]];
    [now subst | contradiction].
Qed.

Lemma load_failure_exits_witness :
  outcome (main "config.yaml" 3 3) unreadable_world [] = Exited 1
  /\ count is_Sentry (events (main "config.yaml" 3 3) unreadable_world []) = 0%nat.
Proof.
  unfold outcome, events.
  rewrite (load_failure_exits "config.yaml" 3 3 unreadable_world []
             (LibError "permission denied") eq_refl eq_refl).
  split; reflexivity.
Defined.

(** X15: when the configuration is loaded and names neither a URL nor a
    domain, [main] reports the configuration error with the prefix FATAL,
    to the log and to Sentry, waits up to five seconds for Sentry to flush,
    and exits with status 1; no connection is attempted. *)
Theorem missing_target_is_fatal (configPath : string) (cycles reads : nat)
    (w : World) (h : history) (cfg : Config) :
  os_IsNotExist (os_Stat w h configPath) = false ->
  outcome (loadConfig configPath) w (h ++ [EStat configPath])%list
  = Done (Some cfg, nil) ->
  Target_URL cfg = "" ->
  Target_Domain cfg = "" ->
  let loaded := [EStat configPath; EReadFile configPath] in
  main configPath cycles reads w h
  = (Exited 1,
     loaded ++ sentry_start w (h ++ loaded)%list cfg
     ++ fatal "Configuration Error: %v" [VError (snd (getTargetURL cfg))])%list
  /\ count is_Dial (events (main configPath cycles reads) w h) = 0%nat.
Proof.
  intros Hstat Hload Hu Hd loaded.
  destruct (loadConfig_loaded _ _ _ _ Hload) as (data & Hr & Hy).
  assert (Hm : main configPath cycles reads w h
               = (Exited 1,
                  loaded ++ sentry_start w (h ++ loaded)%list cfg
                  ++ fatal "Configuration Error: %v"
                       [VError (snd (getTargetURL cfg))])%list).
  { rewrite main_run, Hstat, Hr, Hy. cbv zeta.
    unfold getTargetURL. rewrite Hu, Hd. reflexivity. }
  split; [exact Hm|].
  unfold events. rewrite Hm. cbn [snd].
  destruct (sentry_start_counts w (h ++ loaded)%list cfg) as (D & _).
  rewrite !count_app, D. reflexivity.
Qed.

Lemma missing_target_is_fatal_witness :
  let cfg := mkConfig "" "" 10 300 "./script.sh" "" in
  main "config.yaml" 3 3 (configured_world cfg) []
  = (Exited 1,
     [EStat "config.yaml"; EReadFile "config.yaml"]
     ++ fatal "Configuration Error: %v"
          [VError (Some (Errorf
             "target.domain or target.url must be specified in the configuration file"))])%list.
Proof.
  cbv zeta.
  apply (missing_target_is_fatal "config.yaml" 3 3
           (configured_world (mkConfig "" "" 10 300 "./script.sh" "")) []
           (mkConfig "" "" 10 300 "./script.sh" "")
           eq_refl eq_refl eq_refl eq_refl).
Defined.

(** X16: when the configuration is loaded and resolves to an address,
    start-up always hands over to the supervisor loop, with the resolved
    address and the effective cooldown, whether Sentry is configured or not
    and whether its initialisation succeeds or fails.  Start-up itself
    attempts no connection and initialises Sentry only when a DSN is
    configured; from then on the program only ever connects to the
    resolved address and only ever sleeps for the effective cooldown. *)
Theorem startup_hands_over_to_supervisor (configPath : string)
    (cycles reads : nat) (w : World) (h : history) (cfg : Config)
    (targetURL : string) :
  os_IsNotExist (os_Stat w h configPath) = false ->
  outcome (loadConfig configPath) w (h ++ [EStat configPath])%list
  = Done (Some cfg, nil) ->
  getTargetURL cfg = (targetURL, nil) ->
  let t := events (main configPath cycles reads) w h in
  (exists pre,
     t = (pre ++ events (supervisor cycles reads targetURL cfg (cooldownDuration cfg))
                        w (h ++ pre)%list)%list
     /\ count is_Dial pre = 0%nat
     /\ count is_SentryInit pre
        = (if String.eqb (Sentry_DSN cfg) "" then 0%nat else 1%nat))
  /\ filter is_Dial t = repeat (EDial targetURL) (count is_Dial t)
  /\ filter is_Sleep t = repeat (ESleep (cooldownDuration cfg)) (count is_Sleep t)
  /\ count is_SentryInit t
     = (if String.eqb (Sentry_DSN cfg) "" then 0%nat else 1%nat).
Proof.
  intros Hstat Hload Hurl. cbv zeta.
  destruct (loadConfig_loaded _ _ _ _ Hload) as (data & Hr & Hy).
  unfold events at 1 2 3 4 5 6 7.
  rewrite main_run, Hstat, Hr, Hy, Hurl. unfold nil. cbv zeta. cbn [snd].
  set (loaded := [EStat configPath; EReadFile configPath]).
  destruct (sentry_start_counts w (h ++ loaded)%list cfg) as (D & _ & _ & S & I).
  set (init := sentry_start w (h ++ loaded)%list cfg) in *.
  set (pre := (loaded ++ init
               ++ logged "Configuration Loaded. Target: %s, Timeout: %ds, Cooldown: %s"
                    [VString targetURL; VInt (Timeout cfg);
                     VDuration (cooldownDuration cfg)])%list).
  destruct (supervisor_facts cycles reads targetURL cfg (cooldownDuration cfg)
              w (h ++ pre)%list) as (_ & _ & _ & _ & _ & FD & FS).
  destruct (supervisor_counts cycles reads targetURL cfg (cooldownDuration cfg)
              w (h ++ pre)%list) as (_ & _ & SI).
  cbv zeta in FD, FS.
  assert (Dp : count is_Dial pre = 0%nat)
    by (unfold pre; rewrite !count_app, D; reflexivity).
  assert (Sp : count is_Sleep pre = 0%nat)
    by (unfold pre; rewrite !count_app, S; reflexivity).
  assert (Ip : count is_SentryInit pre
               = (if String.eqb (Sentry_DSN cfg) "" then 0%nat else 1%nat))
    by (unfold pre; rewrite !count_app, I; cbn; lia).
  split; [exists pre; repeat split; assumption|].
  rewrite !count_app, !filter_app, Dp, Sp, Ip, SI.
  rewrite (filter_nil_of_count _ _ Dp), (filter_nil_of_count _ _ Sp).
  cbn [app Nat.add]. repeat split; try assumption. lia.
Qed.

Lemma startup_hands_over_to_supervisor_witness :
  let cfg := mkConfig "https://misskey.io/" "" 10 0 "./script.sh" "not-a-dsn" in
  filter is_Dial (events (main "config.yaml" 2 3) (configured_world cfg) [])
  = repeat (EDial "wss://misskey.io/streaming")
           (count is_Dial (events (main "config.yaml" 2 3) (configured_world cfg) []))
  /\ count is_SentryInit (events (main "config.yaml" 2 3) (configured_world cfg) [])
     = 1%nat.
Proof.
  cbv zeta.
  destruct (startup_hands_over_to_supervisor "config.yaml" 2 3
              (configured_world
                 (mkConfig "https://misskey.io/" "" 10 0 "./script.sh" "not-a-dsn"))
              []
              (mkConfig "https://misskey.io/" "" 10 0 "./script.sh" "not-a-dsn")
              "wss://misskey.io/streaming" eq_refl eq_refl eq_refl)
    as (_ & D & _ & I).
  split; [exact D | exact I].
Defined.

(** ** A session has no cap on the messages it reads *)

Lemma readLoop_silent_reads k reads d h :
  (count is_ReadMessage h <= k < count is_ReadMessage h + reads)%nat ->
  count is_ReadMessage (events (readLoop reads d) (silent_after k) h)
  = (S k - count is_ReadMessage h)%nat.
Proof.
  unfold events.
  revert h; induction reads as [|reads IH]; intros h Hk; [lia|].
  rewrite readLoop_S; cbv zeta.
  cbn [silent_after conn_SetReadDeadline conn_ReadMessage]. unfold nil.
  rewrite count_app. cbn [count filter is_ReadMessage List.length].
  rewrite Nat.add_0_r.
  destruct (Nat.leb_spec k (count is_ReadMessage h)) as [Hle | Hlt].
  - cbn [snd]. rewrite !count_cons. cbn [is_ReadMessage].
    change (count is_ReadMessage []) with 0%nat. lia.
  - match goal with
    | |- context [readLoop reads d _ ?h'] => specialize (IH h')
    end.
    rewrite count_app in IH. cbn [count filter is_ReadMessage List.length] in IH.
    destruct (readLoop reads d _ _) as [r t]. cbn [snd] in *.
    rewrite !count_cons. cbn [is_ReadMessage].
    fold (count is_ReadMessage t). rewrite IH by lia. lia.
Qed.

(** X17: the read loop has no bound of its own: whatever the number [k],
    when the stream delivers [k] messages and then goes silent, the session
    reads all [k] of them and ends at the read that follows, with the read
    error. *)
Theorem session_reads_until_silence (k reads : nat) (url : string) (cfg : Config) :
  (k < reads)%nat ->
  outcome (startMonitoringSession reads url cfg) (silent_after k) []
  = Done (Some (error_of (ReadFailedOrTimedOut i_o_timeout)))
  /\ count is_ReadMessage
       (events (startMonitoringSession reads url cfg) (silent_after k) [])
     = S k.
Proof.
  intros Hk. split.
  - rewrite session_returns_when_stream_goes_silent.
    now apply Nat.ltb_lt in Hk as ->.
  - unfold events. rewrite startMonitoringSession_run; cbv zeta.
    cbn [silent_after websocket_Dial conn_WriteMessage]. unfold nil.
    match goal with
    | |- context [readLoop reads ?d _ ?h'] =>
        pose proof (readLoop_silent_reads k reads d h') as Hs
    end.
    unfold events in Hs. cbn in Hs. specialize (Hs ltac:(lia)).
    destruct (readLoop reads _ _ _) as [[e | c |] t]; cbn [snd] in *;
      rewrite !count_app, Hs; cbn; lia.
Qed.

Lemma session_reads_until_silence_witness :
  count is_ReadMessage
    (events (startMonitoringSession 10 "wss://misskey.io/streaming"
               (mkConfig "misskey.io" "" 10 300 "./script.sh" ""))
            (silent_after 4) [])
  = 5%nat.
Proof.
  apply (session_reads_until_silence 4 10 "wss://misskey.io/streaming"
           (mkConfig "misskey.io" "" 10 300 "./script.sh" "")).
  lia.
Defined.

(** ** The exit status of the process *)

Example flag_Parse_samples (path : string) :
  flag_Parse [] = FlagsParsed "config.yaml"
  /\ flag_Parse ["-config"; path] = FlagsParsed path
  /\ flag_Parse ["--config"; path] = FlagsParsed path
  /\ flag_Parse ["-config=" ++ path] = FlagsParsed path
  /\ flag_Parse ["-config"; "a.yaml"; "-config"; path; "extra"] = FlagsParsed path
  /\ flag_Parse ["--"; "-h"] = FlagsParsed "config.yaml"
  /\ flag_Parse ["-h"] = FlagHelp
  /\ flag_Parse ["--help"] = FlagHelp
  /\ flag_Parse ["-config"]
     = FlagError (Formatted "flag needs an argument: -%s" [VString "config"])
  /\ flag_Parse ["-verbose"]
     = FlagError (Formatted "flag provided but not defined: -%s" [VString "verbose"])
  /\ flag_Parse ["-=x"]
     = FlagError (Formatted "bad flag syntax: %s" [VString "-=x"]).
Proof. repeat split. Qed.

(** X12: [main] never returns.  When the process ends, [os.Exit] is its last
    event, and the status is 0 exactly when the command line asked for help
    ([-h], [-help]), 2 exactly when the command line is malformed, and 1
    otherwise, for a failure during start-up; with a well-formed command
    line the process either exits with status 1 or is in the supervisor
    loop, without having called [os.Exit]. *)
Theorem exit_status_of_the_process (args : list string) (cycles reads : nat)
    (w : World) (h : history) :
  let t := events (main_from_command_line args cycles reads) w h in
  match outcome (main_from_command_line args cycles reads) w h with
  | Done _ => False
  | Exited code =>
      (exists t', t = (t' ++ [EExit code])%list /\ count is_Exit t' = 0%nat)
      /\ match flag_Parse args with
         | FlagHelp => code = 0
         | FlagError _ => code = 2
         | FlagsParsed _ => code = 1
         end
  | Running =>
      count is_Exit t = 0%nat
      /\ exists configPath, flag_Parse args = FlagsParsed configPath
  end.
Proof.
  cbv zeta. unfold main_from_command_line.
  destruct (flag_Parse args) as [configPath | | m].
  - pose proof (main_exit_facts configPath cycles reads w h) as F.
    cbv zeta in F.
    destruct (outcome (main configPath cycles reads) w h) as [[] | code |].
    + exact F.
    + destruct F as (-> & t' & E & X). split; [|reflexivity].
      now exists t'.
    + split; [exact F | now exists configPath].
  - split; [|reflexivity]. exists [EUsage]. split; reflexivity.
  - split; [|reflexivity]. exists [EFlagError m; EUsage]. split; reflexivity.
Qed.
